(** * University management system: a shallow embedding and its properties

    The program ([university_management_system.py]) is a small
    object-oriented record keeper: persons (students, teachers, an
    authority), courses with a roster and an observer list, a user factory
    and a singleton registry.  Python objects are mutable and shared by
    reference, so the embedding keeps one store per class and passes
    object references around; every method becomes a computation in a
    state-and-exception monad over that store.

    Numbers (grades, credits) are Python [int]/[float] values; they are
    idealised here as exact rationals [Q], compared with [Qeq].  Console
    output is kept as the list of printed lines; an f-string is the list
    of its literal and interpolated pieces, so that no number formatting
    has to be interpreted. *)

From Stdlib Require Import QArith.
From stdpp Require Import base option list strings.

Open Scope Q_scope.
Open Scope nat_scope.

(** ** Object references, text and Python dictionaries *)

(** A reference is the identity of an object ([id(obj)]); objects of one
    class live in one store, indexed by creation order. *)
Abbreviation ref := nat (only parsing).

(** A piece of an f-string: literal text or an interpolated number. *)
Inductive atom :=
| Str (s : string)
| Num (q : Q).

(** One printed line. *)
Definition text := list atom.

(** A Python [dict] with string keys: insertion-ordered, keys unique. *)
Abbreviation dict V := (list (string * V)) (only parsing).

Section PyDict.
Context {V : Type}.

(** [d.get(k)] *)
Fixpoint dict_get (k : string) (d : dict V) : option V :=
  match d with
  | [] => None
  | (k', v) :: d' => if decide (k = k') then Some v else dict_get k d'
  end.

(** [k in d] *)
Definition dict_mem (k : string) (d : dict V) : bool :=
  match dict_get k d with Some _ => true | None => false end.

(** [d[k] = v]: an existing key keeps its position, a new key goes last. *)
Fixpoint dict_set (k : string) (v : V) (d : dict V) : dict V :=
  match d with
  | [] => [(k, v)]
  | (k', v') :: d' =>
      if decide (k = k') then (k', v) :: d' else (k', v') :: dict_set k v d'
  end.

(** [d.pop(k, None)], keeping only the remaining dictionary. *)
Fixpoint dict_pop (k : string) (d : dict V) : dict V :=
  match d with
  | [] => []
  | (k', v') :: d' =>
      if decide (k = k') then d' else (k', v') :: dict_pop k d'
  end.

(** [d.keys()], [d.values()], [len(d)] *)
Definition dict_keys (d : dict V) : list string := d.*1.
Definition dict_values (d : dict V) : list V := d.*2.
Definition dict_len (d : dict V) : nat := length d.
End PyDict.

(** [lst.remove(x)] when [x] occurs: drops the first occurrence. *)
Fixpoint list_remove_first (x : ref) (l : list ref) : list ref :=
  match l with
  | [] => []
  | y :: l' => if decide (x = y) then l' else y :: list_remove_first x l'
  end.

(** ** The classes' data *)

(** [class Person] *)
Record Person := mkPerson {
  name : string;
  person_id : string;
  email : string
}.

(** The GPA strategy objects: the abstract base and [RegularGPA].  They
    carry no state. *)
Inductive GPAStrategy :=
| GPAStrategy_base
| RegularGPA_obj.

(** [class Course]: the roster [students] and the [observers] hold
    references to students. *)
Record Course := mkCourse {
  course_code : string;
  course_name : string;
  credit : Q;
  students : list ref;
  observers : list ref
}.

(** [class Student(Person, Observer)]: [courses] maps a course code to a
    course reference, [grades] a course code to a number. *)
Record Student := mkStudent {
  student_person :> Person;
  courses : dict ref;
  grades : dict Q;
  gpa_strategy : GPAStrategy
}.

(** [class Teacher(Person)]; its [courses] list is [teacher_courses]. *)
Record Teacher := mkTeacher {
  teacher_person :> Person;
  teacher_courses : list ref
}.

(** [class Authority(Person)] adds no field. *)
Record Authority := mkAuthority {
  authority_person :> Person
}.

(** [class UniversitySystem]: the three mappings of an instance. *)
Record UniversitySystem := mkUniversitySystem {
  uni_students : dict ref;
  uni_teachers : dict ref;
  uni_courses : dict ref
}.

(** The whole store: one arena per class, the class attribute
    [UniversitySystem._instance], and the console. *)
Record State := mkState {
  student_objs : list Student;
  course_objs : list Course;
  teacher_objs : list Teacher;
  authority_objs : list Authority;
  uni_objs : list UniversitySystem;
  _instance : option ref;
  stdout : list text
}.

Definition initial : State := mkState [] [] [] [] [] None [].

(** ** The monad of methods *)

Inductive exn :=
| ValueError (msg : string).

(** A call returns, raises, or is [Dangling]: it went through a reference
    that designates no object of the expected class, which no Python
    execution can do. *)
Inductive Result (A : Type) :=
| Ok (a : A) (st : State)
| Raise (e : exn) (st : State)
| Dangling.
Arguments Ok {A} a st.
Arguments Raise {A} e st.
Arguments Dangling {A}.

Definition M (A : Type) := State -> Result A.

#[global] Instance M_ret : MRet M := fun A a st => Ok a st.

#[global] Instance M_bind : MBind M := fun A B k m st =>
  match m st with
  | Ok a st' => k a st'
  | Raise e st' => Raise e st'
  | Dangling => Dangling
  end.

Definition raise {A} (e : exn) : M A := fun st => Raise e st.

(** [for x in xs: body(x)] *)
Fixpoint for_each {A} (xs : list A) (body : A -> M unit) : M unit :=
  match xs with
  | [] => mret tt
  | x :: xs' => body x;; for_each xs' body
  end.

Definition deref {A} (o : option A) : M A :=
  fun st => match o with Some a => Ok a st | None => Dangling end.

Definition get_student (r : ref) : M Student :=
  fun st => deref (student_objs st !! r) st.
Definition get_course (r : ref) : M Course :=
  fun st => deref (course_objs st !! r) st.
Definition get_teacher (r : ref) : M Teacher :=
  fun st => deref (teacher_objs st !! r) st.
Definition get_authority (r : ref) : M Authority :=
  fun st => deref (authority_objs st !! r) st.
Definition get_uni (r : ref) : M UniversitySystem :=
  fun st => deref (uni_objs st !! r) st.

(** The store after an assignment through a reference, after the
    creation of an object, and after printing. *)
Definition upd_student (r : ref) (s : Student) (st : State) : State :=
  mkState (<[r:=s]> (student_objs st)) (course_objs st) (teacher_objs st)
    (authority_objs st) (uni_objs st) (_instance st) (stdout st).
Definition upd_course (r : ref) (c : Course) (st : State) : State :=
  mkState (student_objs st) (<[r:=c]> (course_objs st)) (teacher_objs st)
    (authority_objs st) (uni_objs st) (_instance st) (stdout st).
Definition upd_teacher (r : ref) (t : Teacher) (st : State) : State :=
  mkState (student_objs st) (course_objs st) (<[r:=t]> (teacher_objs st))
    (authority_objs st) (uni_objs st) (_instance st) (stdout st).
Definition upd_uni (r : ref) (u : UniversitySystem) (st : State) : State :=
  mkState (student_objs st) (course_objs st) (teacher_objs st)
    (authority_objs st) (<[r:=u]> (uni_objs st)) (_instance st) (stdout st).

Definition alloc_student (s : Student) (st : State) : State :=
  mkState (student_objs st ++ [s]) (course_objs st) (teacher_objs st)
    (authority_objs st) (uni_objs st) (_instance st) (stdout st).
Definition alloc_course (c : Course) (st : State) : State :=
  mkState (student_objs st) (course_objs st ++ [c]) (teacher_objs st)
    (authority_objs st) (uni_objs st) (_instance st) (stdout st).
Definition alloc_teacher (t : Teacher) (st : State) : State :=
  mkState (student_objs st) (course_objs st) (teacher_objs st ++ [t])
    (authority_objs st) (uni_objs st) (_instance st) (stdout st).
Definition alloc_authority (a : Authority) (st : State) : State :=
  mkState (student_objs st) (course_objs st) (teacher_objs st)
    (authority_objs st ++ [a]) (uni_objs st) (_instance st) (stdout st).
Definition alloc_uni (u : UniversitySystem) (st : State) : State :=
  mkState (student_objs st) (course_objs st) (teacher_objs st)
    (authority_objs st) (uni_objs st ++ [u]) (_instance st) (stdout st).

Definition with_instance (r : ref) (st : State) : State :=
  mkState (student_objs st) (course_objs st) (teacher_objs st)
    (authority_objs st) (uni_objs st) (Some r) (stdout st).

Definition emit (lines : list text) (st : State) : State :=
  mkState (student_objs st) (course_objs st) (teacher_objs st)
    (authority_objs st) (uni_objs st) (_instance st) (stdout st ++ lines).

Definition put_student (r : ref) (s : Student) : M unit :=
  fun st => Ok tt (upd_student r s st).
Definition put_course (r : ref) (c : Course) : M unit :=
  fun st => Ok tt (upd_course r c st).
Definition put_teacher (r : ref) (t : Teacher) : M unit :=
  fun st => Ok tt (upd_teacher r t st).
Definition put_uni (r : ref) (u : UniversitySystem) : M unit :=
  fun st => Ok tt (upd_uni r u st).

(** Object creation: the new object goes at the end of its arena. *)
Definition new_student (s : Student) : M ref :=
  fun st => Ok (length (student_objs st)) (alloc_student s st).
Definition new_course (c : Course) : M ref :=
  fun st => Ok (length (course_objs st)) (alloc_course c st).
Definition new_teacher (t : Teacher) : M ref :=
  fun st => Ok (length (teacher_objs st)) (alloc_teacher t st).
Definition new_authority (a : Authority) : M ref :=
  fun st => Ok (length (authority_objs st)) (alloc_authority a st).
Definition new_uni (u : UniversitySystem) : M ref :=
  fun st => Ok (length (uni_objs st)) (alloc_uni u st).

Definition get_instance : M (option ref) := fun st => Ok (_instance st) st.
Definition set_instance (r : ref) : M unit :=
  fun st => Ok tt (with_instance r st).

(** [print(...)]: one more line on the console. *)
Definition print (line : text) : M unit :=
  fun st => Ok tt (emit [line] st).

(** ** The classes' methods *)

(** [class Observer], lines 7-9, as seen through its subclass. *)
Module Observer.
(** [obs.update(message)] on an observer held by a course.  The base
    method is empty; the observers are students, whose override
    prints the message tagged with the student's name. *)
Definition update (self : ref) (message : text) : M unit :=
  s ← get_student self;
  print ([Str "[Notification - "; Str (name (student_person s)); Str "]: "]
         ++ message).
End Observer.

(** [class RegularGPA(GPAStrategy)], lines 18-22. *)
Module RegularGPA.
(** [sum(grades.values())]: a left fold from [0]. *)
Definition sum (values : list Q) : Q := fold_left Qplus values 0%Q.

Definition calculate (grades : dict Q) : Q :=
  match grades with
  | [] => 0%Q
  | _ => (sum (dict_values grades) / inject_Z (Z.of_nat (dict_len grades)))%Q
  end.
End RegularGPA.

(** [class GPAStrategy], lines 13-15, and the dispatch on its subclass. *)
Module GPAStrategy.
(** [strategy.calculate(grades)], by the class of the strategy object;
    the base method returns [None]. *)
Definition calculate (self : GPAStrategy) (grades : dict Q) : option Q :=
  match self with
  | GPAStrategy_base => None
  | RegularGPA_obj => Some (RegularGPA.calculate grades)
  end.
End GPAStrategy.

(** [class Person], lines 26-33. *)
Module Person.
Definition display_info (p : Person) : M unit :=
  print [Str "Name: "; Str (name p); Str ", ID: "; Str (person_id p);
         Str ", Email: "; Str (email p)].
End Person.

(** [class Course], lines 37-67. *)
Module Course.
Definition __init__ (code name : string) (credit : Q) : M ref :=
  new_course (mkCourse code name credit [] []).

Definition attach (self observer : ref) : M unit :=
  c ← get_course self;
  if decide (observer ∈ observers c) then mret tt
  else put_course self
         (mkCourse (course_code c) (course_name c) (credit c)
            (students c) (observers c ++ [observer])).

Definition notify (self : ref) (message : text) : M unit :=
  c ← get_course self;
  for_each (observers c) (fun obs => Observer.update obs message).

Definition add_student (self student : ref) : M unit :=
  c ← get_course self;
  if decide (student ∈ students c) then mret tt
  else
    put_course self
      (mkCourse (course_code c) (course_name c) (credit c)
         (students c ++ [student]) (observers c));;
    attach self student;;
    notify self [Str "Enrolled in "; Str (course_name c)].

Definition remove_student (self student : ref) : M unit :=
  c ← get_course self;
  if decide (student ∈ students c) then
    put_course self
      (mkCourse (course_code c) (course_name c) (credit c)
         (list_remove_first student (students c)) (observers c));;
    notify self [Str "Dropped from "; Str (course_name c)]
  else mret tt.

Definition view_students (self : ref) : M unit :=
  c ← get_course self;
  print [Str "Students in "; Str (course_name c); Str ":"];;
  for_each (students c)
    (fun r => s ← get_student r;
              print [Str "- "; Str (name (student_person s))]).
End Course.

(** [class Student(Person, Observer)], lines 71-106. *)
Module Student.
Definition __init__ (name student_id email : string)
    (gpa_strategy : GPAStrategy) : M ref :=
  new_student (mkStudent (mkPerson name student_id email) [] [] gpa_strategy).

Definition add_course (self course : ref) : M unit :=
  s ← get_student self;
  c ← get_course course;
  if dict_mem (course_code c) (courses s) then
    print [Str "Already enrolled in this course"]
  else
    put_student self
      (mkStudent (student_person s) (dict_set (course_code c) course (courses s))
         (grades s) (gpa_strategy s));;
    Course.add_student course self.

Definition drop_course (self : ref) (course_code : string) : M unit :=
  s ← get_student self;
  match dict_get course_code (courses s) with
  | Some course =>
      put_student self
        (mkStudent (student_person s) (dict_pop course_code (courses s))
           (grades s) (gpa_strategy s));;
      Course.remove_student course self
  | None => print [Str "Course not found"]
  end.

Definition update (self : ref) (message : text) : M unit :=
  Observer.update self message.

Definition view_courses (self : ref) : M unit :=
  s ← get_student self;
  print [Str (name (student_person s)); Str "'s Courses:"];;
  for_each (dict_values (courses s))
    (fun r => c ← get_course r; print [Str "- "; Str (course_name c)]).

Definition view_grades (self : ref) : M unit :=
  s ← get_student self;
  print [Str "Grades:"];;
  for_each (grades s)
    (fun '(code, grade) => print [Str code; Str ": "; Num grade]).

Definition calculate_gpa (self : ref) : M (option Q) :=
  s ← get_student self;
  mret (GPAStrategy.calculate (gpa_strategy s) (grades s)).
End Student.

(** [class Teacher(Person)], lines 110-128. *)
Module Teacher.
Definition __init__ (name teacher_id email : string) : M ref :=
  new_teacher (mkTeacher (mkPerson name teacher_id email) []).

Definition assign_course (self course : ref) : M unit :=
  t ← get_teacher self;
  put_teacher self (mkTeacher (teacher_person t) (teacher_courses t ++ [course])).

Definition assign_grade (self student : ref) (course_code : string)
    (grade : Q) : M unit :=
  _ ← get_teacher self;
  s ← get_student student;
  if dict_mem course_code (courses s) then
    put_student student
      (mkStudent (student_person s) (courses s) (dict_set course_code grade (grades s))
         (gpa_strategy s));;
    Student.update student
      [Str "Grade "; Num grade; Str " assigned for "; Str course_code]
  else print [Str "Student not enrolled in this course"].

Definition view_courses (self : ref) : M unit :=
  t ← get_teacher self;
  print [Str (name (teacher_person t)); Str " teaches:"];;
  for_each (teacher_courses t)
    (fun r => c ← get_course r; print [Str "- "; Str (course_name c)]).
End Teacher.

(** [class Authority(Person)], lines 132-134. *)
Module Authority.
Definition __init__ (name id_ email : string) : M ref :=
  new_authority (mkAuthority (mkPerson name id_ email)).

Definition create_course (self : ref) (code name : string) (credit : Q)
    : M ref :=
  _ ← get_authority self;
  Course.__init__ code name credit.
End Authority.

(** What [create_user] returns: a reference tagged with its class. *)
Inductive user :=
| AStudent (r : ref)
| ATeacher (r : ref)
| AnAuthority (r : ref).

(** [class UserFactory], lines 138-148. *)
Module UserFactory.
Definition create_user (role name id_ email : string) : M user :=
  if decide (role = "student") then
    r ← Student.__init__ name id_ email RegularGPA_obj; mret (AStudent r)
  else if decide (role = "teacher") then
    r ← Teacher.__init__ name id_ email; mret (ATeacher r)
  else if decide (role = "authority") then
    r ← Authority.__init__ name id_ email; mret (AnAuthority r)
  else raise (ValueError "Invalid user role").
End UserFactory.

(** [class UniversitySystem], lines 152-194. *)
Module UniversitySystem.
(** [UniversitySystem()]: [__new__] creates the instance on the first
    call only; the class defines no [__init__]. *)
Definition __new__ : M ref :=
  i ← get_instance;
  match i with
  | None =>
      r ← new_uni (mkUniversitySystem [] [] []);
      set_instance r;;
      mret r
  | Some r => mret r
  end.

Definition add_student (self student : ref) : M unit :=
  u ← get_uni self;
  s ← get_student student;
  put_uni self
    (mkUniversitySystem (dict_set (person_id (student_person s)) student (uni_students u))
       (uni_teachers u) (uni_courses u)).

Definition remove_student (self : ref) (student_id : string) : M unit :=
  u ← get_uni self;
  put_uni self
    (mkUniversitySystem (dict_pop student_id (uni_students u))
       (uni_teachers u) (uni_courses u)).

Definition add_teacher (self teacher : ref) : M unit :=
  u ← get_uni self;
  t ← get_teacher teacher;
  put_uni self
    (mkUniversitySystem (uni_students u)
       (dict_set (person_id (teacher_person t)) teacher (uni_teachers u)) (uni_courses u)).

Definition remove_teacher (self : ref) (teacher_id : string) : M unit :=
  u ← get_uni self;
  put_uni self
    (mkUniversitySystem (uni_students u)
       (dict_pop teacher_id (uni_teachers u)) (uni_courses u)).

Definition add_course (self course : ref) : M unit :=
  u ← get_uni self;
  c ← get_course course;
  put_uni self
    (mkUniversitySystem (uni_students u) (uni_teachers u)
       (dict_set (course_code c) course (uni_courses u))).

Definition remove_course (self : ref) (course_code : string) : M unit :=
  u ← get_uni self;
  put_uni self
    (mkUniversitySystem (uni_students u) (uni_teachers u)
       (dict_pop course_code (uni_courses u))).

Definition list_students (self : ref) : M unit :=
  u ← get_uni self;
  print [Str "Students:"];;
  for_each (dict_values (uni_students u))
    (fun r => s ← get_student r;
              print [Str "- "; Str (name (student_person s)); Str " (";
                     Str (person_id (student_person s));
                     Str ")"]).

Definition list_teachers (self : ref) : M unit :=
  u ← get_uni self;
  print [Str "Teachers:"];;
  for_each (dict_values (uni_teachers u))
    (fun r => t ← get_teacher r;
              print [Str "- "; Str (name (teacher_person t)); Str " (";
                     Str (person_id (teacher_person t));
                     Str ")"]).

Definition list_courses (self : ref) : M unit :=
  u ← get_uni self;
  print [Str "Courses:"];;
  for_each (dict_values (uni_courses u))
    (fun r => c ← get_course r;
              print [Str "- "; Str (course_name c); Str " (";
                     Str (course_code c); Str ")"]).
End UniversitySystem.

Definition user_ref (u : user) : ref :=
  match u with AStudent r | ATeacher r | AnAuthority r => r end.

Module Main.
(** The script under [if __name__ == "__main__"]; the student and the
    course it creates are returned for inspection. *)
Definition main : M (ref * ref) :=
  uni ← UniversitySystem.__new__;
  admin ← UserFactory.create_user "authority" "Registrar" "A01" "admin@uni.edu";
  student1 ← UserFactory.create_user "student" "MS Dhoni" "S01" "msdhoni7@uni.edu";
  teacher1 ← UserFactory.create_user "teacher" "Goutam Gambhir" "T01" "gg5@uni.edu";
  UniversitySystem.add_student uni (user_ref student1);;
  UniversitySystem.add_teacher uni (user_ref teacher1);;
  cse101 ← Authority.create_course (user_ref admin) "CSE110" "Intro to Programming" 3%Q;
  UniversitySystem.add_course uni cse101;;
  Teacher.assign_course (user_ref teacher1) cse101;;
  Student.add_course (user_ref student1) cse101;;
  Teacher.assign_grade (user_ref teacher1) (user_ref student1) "CSE101" 4.0%Q;;
  Student.view_courses (user_ref student1);;
  Student.view_grades (user_ref student1);;
  gpa ← Student.calculate_gpa (user_ref student1);
  print [Str "GPA:"; Str " ";
         match gpa with Some q => Num q | None => Str "None" end];;
  Course.view_students cse101;;
  UniversitySystem.list_students uni;;
  UniversitySystem.list_courses uni;;
  UniversitySystem.list_teachers uni;;
  mret (user_ref student1, cse101).
End Main.

(** ** The public interface as a type of calls *)

Inductive call :=
| Student_init (name student_id email : string) (gpa_strategy : GPAStrategy)
| Teacher_init (name teacher_id email : string)
| Authority_init (name id_ email : string)
| Course_init (code name : string) (credit : Q)
| UserFactory_create_user (role name id_ email : string)
| Person_display_info (who : user)
| Authority_create_course (self : ref) (code name : string) (credit : Q)
| Course_attach (self observer : ref)
| Course_notify (self : ref) (message : text)
| Course_add_student (self student : ref)
| Course_remove_student (self student : ref)
| Course_view_students (self : ref)
| Student_add_course (self course : ref)
| Student_drop_course (self : ref) (course_code : string)
| Student_update (self : ref) (message : text)
| Student_view_courses (self : ref)
| Student_view_grades (self : ref)
| Student_calculate_gpa (self : ref)
| Teacher_assign_course (self course : ref)
| Teacher_assign_grade (self student : ref) (course_code : string) (grade : Q)
| Teacher_view_courses (self : ref)
| UniversitySystem_new
| UniversitySystem_add_student (self student : ref)
| UniversitySystem_remove_student (self : ref) (student_id : string)
| UniversitySystem_add_teacher (self teacher : ref)
| UniversitySystem_remove_teacher (self : ref) (teacher_id : string)
| UniversitySystem_add_course (self course : ref)
| UniversitySystem_remove_course (self : ref) (course_code : string)
| UniversitySystem_list_students (self : ref)
| UniversitySystem_list_teachers (self : ref)
| UniversitySystem_list_courses (self : ref).

Definition display_info (who : user) : M unit :=
  match who with
  | AStudent r => s ← get_student r; Person.display_info (student_person s)
  | ATeacher r => t ← get_teacher r; Person.display_info (teacher_person t)
  | AnAuthority r => a ← get_authority r; Person.display_info (authority_person a)
  end.

(** One call, its result dropped. *)
Definition exec (c : call) : M unit :=
  match c with
  | Student_init n i e g => Student.__init__ n i e g;; mret tt
  | Teacher_init n i e => Teacher.__init__ n i e;; mret tt
  | Authority_init n i e => Authority.__init__ n i e;; mret tt
  | Course_init code n cr => Course.__init__ code n cr;; mret tt
  | UserFactory_create_user role n i e =>
      UserFactory.create_user role n i e;; mret tt
  | Person_display_info who => display_info who
  | Authority_create_course a code n cr =>
      Authority.create_course a code n cr;; mret tt
  | Course_attach c o => Course.attach c o
  | Course_notify c m => Course.notify c m
  | Course_add_student c s => Course.add_student c s
  | Course_remove_student c s => Course.remove_student c s
  | Course_view_students c => Course.view_students c
  | Student_add_course s c => Student.add_course s c
  | Student_drop_course s code => Student.drop_course s code
  | Student_update s m => Student.update s m
  | Student_view_courses s => Student.view_courses s
  | Student_view_grades s => Student.view_grades s
  | Student_calculate_gpa s => Student.calculate_gpa s;; mret tt
  | Teacher_assign_course t c => Teacher.assign_course t c
  | Teacher_assign_grade t s code g => Teacher.assign_grade t s code g
  | Teacher_view_courses t => Teacher.view_courses t
  | UniversitySystem_new => UniversitySystem.__new__;; mret tt
  | UniversitySystem_add_student u s => UniversitySystem.add_student u s
  | UniversitySystem_remove_student u i => UniversitySystem.remove_student u i
  | UniversitySystem_add_teacher u t => UniversitySystem.add_teacher u t
  | UniversitySystem_remove_teacher u i => UniversitySystem.remove_teacher u i
  | UniversitySystem_add_course u c => UniversitySystem.add_course u c
  | UniversitySystem_remove_course u code => UniversitySystem.remove_course u code
  | UniversitySystem_list_students u => UniversitySystem.list_students u
  | UniversitySystem_list_teachers u => UniversitySystem.list_teachers u
  | UniversitySystem_list_courses u => UniversitySystem.list_courses u
  end.

(** A sequence of calls. *)
Definition run (cs : list call) : M unit := for_each cs exec.

(** ** Well-formed stores *)

(** [r] designates an object of the arena [objs]. *)
Definition live {A} (objs : list A) (r : ref) : Prop := r < length objs.

(** The receiver and the object arguments of a call exist. *)
Definition args_live (c : call) (st : State) : Prop :=
  match c with
  | Student_init _ _ _ _ | Teacher_init _ _ _ | Authority_init _ _ _
  | Course_init _ _ _ | UserFactory_create_user _ _ _ _
  | UniversitySystem_new => True
  | Person_display_info (AStudent r) => live (student_objs st) r
  | Person_display_info (ATeacher r) => live (teacher_objs st) r
  | Person_display_info (AnAuthority r) => live (authority_objs st) r
  | Authority_create_course a _ _ _ => live (authority_objs st) a
  | Course_attach c o | Course_add_student c o | Course_remove_student c o =>
      live (course_objs st) c ∧ live (student_objs st) o
  | Course_notify c _ | Course_view_students c => live (course_objs st) c
  | Student_add_course s c => live (student_objs st) s ∧ live (course_objs st) c
  | Student_drop_course s _ | Student_update s _ | Student_view_courses s
  | Student_view_grades s | Student_calculate_gpa s => live (student_objs st) s
  | Teacher_assign_course t c => live (teacher_objs st) t ∧ live (course_objs st) c
  | Teacher_assign_grade t s _ _ =>
      live (teacher_objs st) t ∧ live (student_objs st) s
  | Teacher_view_courses t => live (teacher_objs st) t
  | UniversitySystem_add_student u s =>
      live (uni_objs st) u ∧ live (student_objs st) s
  | UniversitySystem_add_teacher u t =>
      live (uni_objs st) u ∧ live (teacher_objs st) t
  | UniversitySystem_add_course u c =>
      live (uni_objs st) u ∧ live (course_objs st) c
  | UniversitySystem_remove_student u _ | UniversitySystem_remove_teacher u _
  | UniversitySystem_remove_course u _ | UniversitySystem_list_students u
  | UniversitySystem_list_teachers u | UniversitySystem_list_courses u =>
      live (uni_objs st) u
  end.

(** The role tags the factory knows. *)
Definition roles : list string := ["student"; "teacher"; "authority"].

(** The calls that raise: the factory with an unknown role tag. *)
Definition bad_role (c : call) : Prop :=
  match c with
  | UserFactory_create_user role _ _ _ => role ∉ roles
  | _ => False
  end.

(** A dictionary of references whose keys are unique and whose entries
    are live objects stored under their own key. *)
Definition keyed {A} (key : A -> string) (objs : list A) (d : dict ref) : Prop :=
  NoDup (dict_keys d) ∧
  ∀ k r, (k, r) ∈ d → ∃ o, objs !! r = Some o ∧ key o = k.

(** A roster has no duplicate, every student on it is an observer, and
    the observers exist. *)
Definition course_ok (ss : list Student) (c : Course) : Prop :=
  NoDup (students c) ∧ students c ⊆ observers c ∧
  Forall (live ss) (observers c).

Definition student_ok (cs : list Course) (s : Student) : Prop :=
  keyed course_code cs (courses s) ∧ NoDup (dict_keys (grades s)).

Definition teacher_ok (cs : list Course) (t : Teacher) : Prop :=
  Forall (live cs) (teacher_courses t).

Definition uni_ok (ss : list Student) (ts : list Teacher) (cs : list Course)
    (u : UniversitySystem) : Prop :=
  keyed (fun s => person_id (student_person s)) ss (uni_students u) ∧
  keyed (fun t => person_id (teacher_person t)) ts (uni_teachers u) ∧
  keyed course_code cs (uni_courses u).

(** The invariant of the stores the calls build. *)
Record wf (st : State) : Prop := mk_wf {
  wf_courses : Forall (course_ok (student_objs st)) (course_objs st);
  wf_students : Forall (student_ok (course_objs st)) (student_objs st);
  wf_teachers : Forall (teacher_ok (course_objs st)) (teacher_objs st);
  wf_unis :
    Forall (uni_ok (student_objs st) (teacher_objs st) (course_objs st))
      (uni_objs st);
  wf_instance : ∀ r, _instance st = Some r → live (uni_objs st) r
}.

(** ** Enrollment seen from both sides *)

(** The student [s] is on the roster of the course [c]. *)
Definition on_roster (st : State) (s c : ref) : Prop :=
  ∃ co, course_objs st !! c = Some co ∧ s ∈ students co.

(** The student [s] holds the course [c] in its mapping, under [c]'s code. *)
Definition enrolled (st : State) (s c : ref) : Prop :=
  ∃ so co, student_objs st !! s = Some so ∧ course_objs st !! c = Some co ∧
           dict_get (course_code co) (courses so) = Some c.

(** Both sides agree on membership. *)
Definition consistent (st : State) : Prop :=
  ∀ s c, on_roster st s c ↔ enrolled st s c.

(** Number of entries of a dictionary whose value is [r]. *)
Definition count_value (r : ref) (d : dict ref) : nat :=
  length (filter (fun kv => kv.2 = r) d).

(** Number of occurrences of [r] in a list of references. *)
Definition count_ref (r : ref) (l : list ref) : nat :=
  length (filter (fun x => x = r) l).

(** ** What the specification says, in its own words *)



(** The line a student prints for a notification. *)
Definition student_name (st : State) (r : ref) : string :=
  match student_objs st !! r with
  | Some s => name (student_person s)
  | None => ""
  end.

Definition notice (st : State) (message : text) (obs : ref) : text :=
  [Str "[Notification - "; Str (student_name st obs); Str "]: "] ++ message.

(** The demonstration accepts the grade under the key it was given. *)
Definition demo_records_grade : Prop :=
  ∀ s c st, Main.main initial = Ok (s, c) st →
    ∃ so g, student_objs st !! s = Some so ∧
            dict_get "CSE101" (grades so) = Some g.

(** ** The stores that calls can build *)

(** A store is reachable when calls on existing objects lead to it from
    the empty store. *)
Inductive reachable : State -> Prop :=
| reachable_initial : reachable initial
| reachable_step st c st' :
    reachable st → args_live c st → exec c st = Ok tt st' → reachable st'.

(** Size of the roster of [c]; number of courses [s] is enrolled in. *)
Definition roster_size (st : State) (c : ref) : nat :=
  match course_objs st !! c with
  | Some co => length (students co)
  | None => 0
  end.

Definition course_count (st : State) (s : ref) : nat :=
  match student_objs st !! s with
  | Some so => dict_len (courses so)
  | None => 0
  end.

(** The store a sequence of calls leaves when started on the empty one. *)
Definition state_after (cs : list call) : State :=
  match run cs initial with
  | Ok _ st => st
  | _ => initial
  end.

(** A student, a teacher, an authority, a course and the registry; the
    student is registered, and enrolled in the course. *)
Definition campus_calls : list call :=
  [UserFactory_create_user "student" "MS Dhoni" "S01" "msdhoni7@uni.edu";
   UserFactory_create_user "teacher" "Goutam Gambhir" "T01" "gg5@uni.edu";
   UserFactory_create_user "authority" "Registrar" "A01" "admin@uni.edu";
   Authority_create_course 0 "CSE110" "Intro to Programming" 3%Q;
   UniversitySystem_new;
   UniversitySystem_add_student 0 0;
   UniversitySystem_add_teacher 0 0;
   UniversitySystem_add_course 0 0;
   Student_add_course 0 0].

Definition campus : State := state_after campus_calls.

(** The same campus with a second student and a second teacher carrying
    the ids of the first ones, and a second course with the code of the
    first. *)
Definition twins_calls : list call :=
  campus_calls ++
  [Student_init "Virat Kohli" "S01" "vk18@uni.edu" RegularGPA_obj;
   Teacher_init "Rahul Dravid" "T01" "rd19@uni.edu";
   Course_init "CSE110" "Programming I" 3%Q].

Definition campus_twins : State := state_after twins_calls.

(** A student put on a roster by the course alone. *)
Definition one_sided_calls : list call :=
  [UserFactory_create_user "student" "MS Dhoni" "S01" "msdhoni7@uni.edu";
   Course_init "CSE110" "Intro to Programming" 3%Q;
   Course_add_student 0 0].

Definition one_sided : State := state_after one_sided_calls.

#[global] Instance args_live_dec c st : Decision (args_live c st).
Proof.
  destruct c as [| | | | |[]| | | | | | | | | | | | | | | | | | | | | | | | |];
    simpl; unfold live; apply _.
Defined.

(** Running calls while checking that their arguments exist. *)
Fixpoint trace (cs : list call) (st : State) : option State :=
  match cs with
  | [] => Some st
  | c :: cs' =>
      if decide (args_live c st) then
        match exec c st with
        | Ok _ st' => trace cs' st'
        | _ => None
        end
      else None
  end.

(** ** Courses and students after an update, as values *)

(** The course after [attach(o)], after [add_student(s)] and after
    [remove_student(s)] took effect. *)
Definition with_observer (o : ref) (c : Course) : Course :=
  mkCourse (course_code c) (course_name c) (credit c) (students c)
    (if decide (o ∈ observers c) then observers c else observers c ++ [o]).

Definition with_student (s : ref) (c : Course) : Course :=
  with_observer s
    (mkCourse (course_code c) (course_name c) (credit c)
       (students c ++ [s]) (observers c)).

Definition without_student (s : ref) (c : Course) : Course :=
  mkCourse (course_code c) (course_name c) (credit c)
    (list_remove_first s (students c)) (observers c).

(** The student after [courses[code] = c], after [courses.pop(code)] and
    after [grades[code] = g]. *)
Definition with_course (code : string) (c : ref) (s : Student) : Student :=
  mkStudent (student_person s) (dict_set code c (courses s)) (grades s)
    (gpa_strategy s).

Definition without_course (code : string) (s : Student) : Student :=
  mkStudent (student_person s) (dict_pop code (courses s)) (grades s)
    (gpa_strategy s).

Definition with_grade (code : string) (g : Q) (s : Student) : Student :=
  mkStudent (student_person s) (courses s) (dict_set code g (grades s))
    (gpa_strategy s).

(** An arena grew or was updated without changing the key of any object. *)
Definition stable {A} (key : A -> string) (objs objs' : list A) : Prop :=
  ∀ r o, objs !! r = Some o → ∃ o', objs' !! r = Some o' ∧ key o' = key o.

(** The computation [m] returns from [st], in a well-formed store. *)
Definition returns_wf {A} (m : M A) (st : State) : Prop :=
  ∃ a st', m st = Ok a st' ∧ wf st'.

(** The computation [m] keeps the property [I] of the store and raises
    no exception. *)
Definition inv (I : State -> Prop) {A} (m : M A) : Prop :=
  ∀ st, I st →
    match m st with
    | Ok _ st' => I st'
    | Raise _ _ => False
    | Dangling => True
    end.

Create HintDb inv_db.

(** Unfolding of the monad's operations. *)
Ltac munfold :=
  unfold mbind, M_bind, mret, M_ret, get_student, get_course, get_teacher,
    get_authority, get_uni, get_instance, set_instance, deref, put_student,
    put_course, put_teacher, put_uni, new_student, new_course, new_teacher,
    new_authority, new_uni, print, raise.

(** ** What the listings read from the store *)













(** No registry instance yet, or exactly one, which [_instance] holds. *)
Definition one_registry (st : State) : Prop :=
  (_instance st = None ∧ uni_objs st = []) ∨
  (_instance st = Some 0 ∧ length (uni_objs st) = 1).

(** The campus after the teacher graded the student in the course. *)
Definition graded_calls : list call :=
  campus_calls ++ [Teacher_assign_grade 0 0 "CSE110" 4.0%Q].

Definition campus_graded : State := state_after graded_calls.

(** The calls that enroll or remove on the course's side only. *)
Definition course_side (c : call) : bool :=
  match c with
  | Course_add_student _ _ | Course_remove_student _ _ => true
  | _ => false
  end.

(** The stores built without those calls. *)
Inductive student_side : State -> Prop :=
| student_side_initial : student_side initial
| student_side_step st c st' :
    student_side st → course_side c = false → args_live c st →
    exec c st = Ok tt st' → student_side st'.

(** ** Dictionaries and rosters *)

Section dict_facts.
Context {V : Type}.
Implicit Types (d : dict V) (k : string) (v : V).

Lemma dict_get_elem k v d : dict_get k d = Some v → (k, v) ∈ d.
Proof.
  induction d as [|[k' v'] d IH]; simpl; [done|].
  case_decide; intros E.
  - injection E as ->. subst. left.
  - right. auto.
Qed.

Lemma dict_get_None k d : dict_get k d = None ↔ k ∉ dict_keys d.
Proof.
  unfold dict_keys.
  induction d as [|[k' v'] d IH]; simpl.
  - split; [intros _; apply not_elem_of_nil | done].
  - rewrite not_elem_of_cons. case_decide; [|tauto].
    split; [done | tauto].
Qed.


Lemma dict_mem_true k d : dict_mem k d = true ↔ is_Some (dict_get k d).
Proof.
  unfold dict_mem. destruct (dict_get k d); split; try done.
Qed.

Lemma dict_mem_false k d : dict_mem k d = false ↔ dict_get k d = None.
Proof. unfold dict_mem. by destruct (dict_get k d). Qed.

Lemma dict_get_set_eq k v d : dict_get k (dict_set k v d) = Some v.
Proof.
  induction d as [|[k' v'] d IH]; simpl.
  - by rewrite decide_True.
  - case_decide; simpl.
    + by rewrite decide_True.
    + by rewrite decide_False.
Qed.

Lemma dict_get_set_ne k k' v d :
  k ≠ k' → dict_get k' (dict_set k v d) = dict_get k' d.
Proof.
  intros Hne. induction d as [|[k0 v0] d IH]; simpl.
  - by rewrite decide_False.
  - destruct (decide (k = k0)) as [->|]; simpl.
    + by rewrite !decide_False by done.
    + by rewrite IH.
Qed.

Lemma dict_set_fresh k v d :
  dict_get k d = None → dict_set k v d = d ++ [(k, v)].
Proof.
  induction d as [|[k0 v0] d IH]; simpl; [done|].
  case_decide; [done|]. intros E. by rewrite IH.
Qed.

Lemma dict_set_keys_present k v d :
  is_Some (dict_get k d) → dict_keys (dict_set k v d) = dict_keys d.
Proof.
  unfold dict_keys.
  induction d as [|[k0 v0] d IH]; simpl; intros [x E]; [done|].
  case_decide; simpl; [done|]. f_equal. apply IH. by exists x.
Qed.


Lemma dict_set_elem k v k' v' d :
  (k', v') ∈ dict_set k v d → (k', v') = (k, v) ∨ (k', v') ∈ d.
Proof.
  induction d as [|[k0 v0] d IH]; simpl.
  - intros E. apply list_elem_of_singleton in E. by left.
  - case_decide; subst; rewrite !elem_of_cons; intros [E|E]; auto.
    destruct (IH E); auto.
Qed.

Lemma dict_set_elem_old k v k' v' d :
  k' ≠ k → (k', v') ∈ d → (k', v') ∈ dict_set k v d.
Proof.
  intros Hne. induction d as [|[k0 v0] d IH]; simpl.
  - by intros E%elem_of_nil.
  - case_decide; subst; rewrite !elem_of_cons; intros [E|E]; auto.
    injection E as -> ->. done.
Qed.

Lemma dict_set_NoDup k v d :
  NoDup (dict_keys d) → NoDup (dict_keys (dict_set k v d)).
Proof.
  intros N. destruct (dict_get k d) eqn:E.
  - rewrite dict_set_keys_present; [done | by eexists].
  - rewrite dict_set_fresh by done. unfold dict_keys in *.
    rewrite fmap_app. simpl. apply NoDup_app. split; [done|].
    split; [|apply NoDup_singleton].
    intros x Hx Hx'. apply list_elem_of_singleton in Hx'. subst.
    by apply dict_get_None in E.
Qed.

Lemma dict_pop_elem k k' v' d : (k', v') ∈ dict_pop k d → (k', v') ∈ d.
Proof.
  induction d as [|[k0 v0] d IH]; simpl; [done|].
  case_decide; rewrite ?elem_of_cons; intros; intuition.
Qed.

Lemma dict_pop_keys k k' d : k' ∈ dict_keys (dict_pop k d) → k' ∈ dict_keys d.
Proof.
  unfold dict_keys. intros E.
  apply list_elem_of_fmap in E as [[k0 v0] [-> E]].
  apply dict_pop_elem in E. by apply (list_elem_of_fmap_2 fst) in E.
Qed.

Lemma dict_pop_NoDup k d :
  NoDup (dict_keys d) → NoDup (dict_keys (dict_pop k d)).
Proof.
  induction d as [|[k0 v0] d IH]; simpl; [done|].
  intros N. apply NoDup_cons in N as [N1 N2].
  case_decide; [done|]. simpl. apply NoDup_cons. split; [|auto].
  intros E. apply N1. by apply dict_pop_keys in E.
Qed.

Lemma dict_get_pop_eq k d :
  NoDup (dict_keys d) → dict_get k (dict_pop k d) = None.
Proof.
  induction d as [|[k0 v0] d IH]; simpl; [done|].
  intros N. apply NoDup_cons in N as [N1 N2].
  case_decide; simpl.
  - subst. by apply dict_get_None.
  - rewrite decide_False by done. auto.
Qed.

Lemma dict_get_pop_ne k k' d :
  k ≠ k' → dict_get k' (dict_pop k d) = dict_get k' d.
Proof.
  intros Hne. induction d as [|[k0 v0] d IH]; simpl; [done|].
  destruct (decide (k = k0)) as [->|]; simpl.
  - by rewrite decide_False.
  - by rewrite IH.
Qed.
End dict_facts.

Lemma remove_first_elem x s l : x ∈ list_remove_first s l → x ∈ l.
Proof.
  induction l as [|y l IH]; simpl; [done|].
  case_decide; rewrite ?elem_of_cons; intuition.
Qed.

Lemma remove_first_elem_ne x s l :
  x ≠ s → x ∈ l → x ∈ list_remove_first s l.
Proof.
  intros Hne. induction l as [|y l IH]; simpl; [done|].
  case_decide; subst; rewrite ?elem_of_cons; intuition congruence.
Qed.

Lemma remove_first_NoDup s l : NoDup l → NoDup (list_remove_first s l).
Proof.
  induction l as [|y l IH]; simpl; [done|].
  intros N. apply NoDup_cons in N as [N1 N2].
  case_decide; [done|]. apply NoDup_cons. split; [|auto].
  intros E. apply N1. by apply remove_first_elem in E.
Qed.

Lemma remove_first_gone s l : NoDup l → s ∉ list_remove_first s l.
Proof.
  induction l as [|y l IH]; simpl; [intros _; apply not_elem_of_nil|].
  intros N. apply NoDup_cons in N as [N1 N2].
  case_decide; subst; [done|].
  rewrite not_elem_of_cons. auto.
Qed.

Lemma remove_first_length s l :
  s ∈ l → S (length (list_remove_first s l)) = length l.
Proof.
  induction l as [|y l IH]; simpl; [by intros E%elem_of_nil|].
  case_decide; [done|]. rewrite elem_of_cons. intros [E|E]; [done|].
  simpl. by rewrite IH.
Qed.

(** ** Stores: liveness, stability, and the invariant under updates *)

Lemma live_lookup {A} (objs : list A) r : live objs r ↔ is_Some (objs !! r).
Proof. unfold live. symmetry. apply lookup_lt_is_Some. Qed.

Lemma live_Some {A} (objs : list A) r o : objs !! r = Some o → live objs r.
Proof. intros H. apply live_lookup. by eexists. Qed.

Lemma stable_refl {A} (key : A -> string) objs : stable key objs objs.
Proof. intros r o H. eauto. Qed.

Lemma stable_app {A} (key : A -> string) objs x :
  stable key objs (objs ++ [x]).
Proof.
  intros r o H. exists o. split; [|done].
  rewrite lookup_app_l; [done|]. by eapply lookup_lt_Some.
Qed.

Lemma stable_insert {A} (key : A -> string) objs i o o' :
  objs !! i = Some o → key o' = key o → stable key objs (<[i:=o']> objs).
Proof.
  intros Hi Hk r x Hr. destruct (decide (i = r)) as [->|Hne].
  - exists o'. rewrite list_lookup_insert_eq by (by eapply lookup_lt_Some).
    split; [done|]. congruence.
  - exists x. by rewrite list_lookup_insert_ne.
Qed.

Lemma stable_live {A} (key : A -> string) objs objs' r :
  stable key objs objs' → live objs r → live objs' r.
Proof.
  intros St L. apply live_lookup in L as [o Ho].
  destruct (St _ _ Ho) as (o' & Ho' & _). by eapply live_Some.
Qed.

Lemma keyed_stable {A} (key : A -> string) objs objs' d :
  stable key objs objs' → keyed key objs d → keyed key objs' d.
Proof.
  intros St [N K]. split; [done|]. intros k r E.
  destruct (K _ _ E) as (o & Ho & <-). by apply St.
Qed.

Lemma keyed_nil {A} (key : A -> string) objs : keyed key objs [].
Proof.
  split; [apply NoDup_nil_2|]. intros k r E. by apply elem_of_nil in E.
Qed.

Lemma keyed_set {A} (key : A -> string) objs d r o :
  keyed key objs d → objs !! r = Some o →
  keyed key objs (dict_set (key o) r d).
Proof.
  intros [N K] Ho. split; [by apply dict_set_NoDup|].
  intros k r' E. apply dict_set_elem in E as [E|E]; [|by apply K].
  injection E as -> ->. eauto.
Qed.

Lemma keyed_pop {A} (key : A -> string) objs d k :
  keyed key objs d → keyed key objs (dict_pop k d).
Proof.
  intros [N K]. split; [by apply dict_pop_NoDup|].
  intros k' r' E. apply K. by eapply dict_pop_elem.
Qed.

Lemma keyed_get {A} (key : A -> string) objs d k r :
  keyed key objs d → dict_get k d = Some r →
  ∃ o, objs !! r = Some o ∧ key o = k.
Proof. intros [N K] E. apply K. by apply dict_get_elem. Qed.

Lemma keyed_values_live {A} (key : A -> string) objs d :
  keyed key objs d → Forall (live objs) (dict_values d).
Proof.
  intros [N K]. apply Forall_forall. intros r E.
  apply list_elem_of_fmap in E as [[k r'] [-> E]]. simpl.
  destruct (K _ _ E) as (o & Ho & _). by eapply live_Some.
Qed.

Lemma course_ok_mono ss ss' c :
  (∀ r, live ss r → live ss' r) → course_ok ss c → course_ok ss' c.
Proof.
  intros Hm (N & Sub & L). repeat split; [done..|].
  eapply Forall_impl; [exact L | done].
Qed.

Lemma student_ok_stable cs cs' s :
  stable course_code cs cs' → student_ok cs s → student_ok cs' s.
Proof. intros St [K N]. split; [by eapply keyed_stable | done]. Qed.

Lemma teacher_ok_stable cs cs' t :
  stable course_code cs cs' → teacher_ok cs t → teacher_ok cs' t.
Proof.
  intros St L. unfold teacher_ok in *. eapply Forall_impl; [exact L|].
  intros r. by apply (stable_live course_code).
Qed.

Lemma uni_ok_stable ss ss' ts ts' cs cs' u :
  stable (fun s => person_id (student_person s)) ss ss' →
  stable (fun t => person_id (teacher_person t)) ts ts' →
  stable course_code cs cs' →
  uni_ok ss ts cs u → uni_ok ss' ts' cs' u.
Proof.
  intros S1 S2 S3 (K1 & K2 & K3).
  split; [by apply (keyed_stable _ ss ss')|].
  split; [by apply (keyed_stable _ ts ts') | by apply (keyed_stable _ cs cs')].
Qed.

Lemma emit_nil st : emit [] st = st.
Proof. destruct st. unfold emit. simpl. by rewrite app_nil_r. Qed.

Lemma emit_emit l1 l2 st : emit l2 (emit l1 st) = emit (l1 ++ l2) st.
Proof. unfold emit. simpl. by rewrite app_assoc. Qed.

Lemma wf_initial : wf initial.
Proof. split; simpl; try apply Forall_nil_2. done. Qed.

Lemma wf_emit lines st : wf st → wf (emit lines st).
Proof. intros [? ? ? ? ?]. by split. Qed.

Lemma wf_upd_course r co co' st :
  wf st → course_objs st !! r = Some co → course_code co' = course_code co →
  course_ok (student_objs st) co' → wf (upd_course r co' st).
Proof.
  intros [W1 W2 W3 W4 W5] Hr Hc Hok.
  assert (St : stable course_code (course_objs st) (<[r:=co']> (course_objs st)))
    by (by eapply stable_insert).
  split; simpl.
  - by apply Forall_insert.
  - eapply Forall_impl; [exact W2|]. intros s. by apply student_ok_stable.
  - eapply Forall_impl; [exact W3|]. intros t. by apply teacher_ok_stable.
  - eapply Forall_impl; [exact W4|]. intros u.
    apply uni_ok_stable; [apply stable_refl..|done].
  - done.
Qed.

Lemma wf_upd_student r so so' st :
  wf st → student_objs st !! r = Some so →
  person_id (student_person so') = person_id (student_person so) →
  student_ok (course_objs st) so' → wf (upd_student r so' st).
Proof.
  intros [W1 W2 W3 W4 W5] Hr Hc Hok.
  assert (St : stable (fun s => person_id (student_person s))
                 (student_objs st) (<[r:=so']> (student_objs st)))
    by (by eapply (stable_insert (fun s => person_id (student_person s)))).
  split; simpl; [|by apply Forall_insert|done| |done].
  - eapply Forall_impl; [exact W1|]. intros c. apply course_ok_mono.
    intros x. by eapply stable_live.
  - eapply Forall_impl; [exact W4|]. intros u.
    apply uni_ok_stable; [done|apply stable_refl..].
Qed.

Lemma wf_upd_teacher r t t' st :
  wf st → teacher_objs st !! r = Some t →
  person_id (teacher_person t') = person_id (teacher_person t) →
  teacher_ok (course_objs st) t' → wf (upd_teacher r t' st).
Proof.
  intros [W1 W2 W3 W4 W5] Hr Hc Hok.
  split; simpl; [done|done|by apply Forall_insert| |done].
  eapply Forall_impl; [exact W4|]. intros u.
  apply uni_ok_stable; [apply stable_refl| |apply stable_refl].
  by eapply (stable_insert (fun t => person_id (teacher_person t))).
Qed.

Lemma wf_upd_uni r u' st :
  wf st →
  uni_ok (student_objs st) (teacher_objs st) (course_objs st) u' →
  wf (upd_uni r u' st).
Proof.
  intros [W1 W2 W3 W4 W5] Hok.
  split; simpl; [done|done|done|by apply Forall_insert|].
  intros x Hx. unfold live. rewrite length_insert. by apply W5.
Qed.

Lemma wf_alloc_student s st :
  wf st → student_ok (course_objs st) s → wf (alloc_student s st).
Proof.
  intros [W1 W2 W3 W4 W5] Hok.
  split; simpl; [| |done| |done].
  - eapply Forall_impl; [exact W1|]. intros c. apply course_ok_mono.
    intros x. unfold live. rewrite length_app. simpl. lia.
  - apply Forall_app. split; [done|]. by apply Forall_singleton.
  - eapply Forall_impl; [exact W4|]. intros u.
    apply uni_ok_stable; [apply stable_app|apply stable_refl..].
Qed.

Lemma wf_alloc_course c st :
  wf st → course_ok (student_objs st) c → wf (alloc_course c st).
Proof.
  intros [W1 W2 W3 W4 W5] Hok.
  split; simpl; [| | | |done].
  - apply Forall_app. split; [done|]. by apply Forall_singleton.
  - eapply Forall_impl; [exact W2|]. intros s.
    apply student_ok_stable, stable_app.
  - eapply Forall_impl; [exact W3|]. intros t.
    apply teacher_ok_stable, stable_app.
  - eapply Forall_impl; [exact W4|]. intros u.
    apply uni_ok_stable; [apply stable_refl..|apply stable_app].
Qed.

Lemma wf_alloc_teacher t st :
  wf st → teacher_ok (course_objs st) t → wf (alloc_teacher t st).
Proof.
  intros [W1 W2 W3 W4 W5] Hok.
  split; simpl; [done|done| | |done].
  - apply Forall_app. split; [done|]. by apply Forall_singleton.
  - eapply Forall_impl; [exact W4|]. intros u.
    apply uni_ok_stable; [apply stable_refl|apply stable_app|apply stable_refl].
Qed.

Lemma wf_alloc_authority a st : wf st → wf (alloc_authority a st).
Proof. intros [? ? ? ? ?]. by split. Qed.

Lemma wf_alloc_uni st :
  wf st → wf (with_instance (length (uni_objs st))
                (alloc_uni (mkUniversitySystem [] [] []) st)).
Proof.
  intros [W1 W2 W3 W4 W5].
  split; simpl; [done|done|done| |].
  - apply Forall_app. split; [done|]. apply Forall_singleton.
    split; [apply keyed_nil | split; apply keyed_nil].
  - intros r [= <-]. unfold live. rewrite length_app. simpl. lia.
Qed.

(** ** What each method computes *)

Lemma for_each_emit {A} (body : A -> M unit) (line : A -> text) st xs :
  (∀ x, x ∈ xs → ∀ lines,
     body x (emit lines st) = Ok tt (emit (lines ++ [line x]) st)) →
  ∀ lines,
    for_each xs body (emit lines st) = Ok tt (emit (lines ++ (line <$> xs)) st).
Proof.
  induction xs as [|x xs IH]; intros H lines; simpl.
  - by rewrite app_nil_r.
  - unfold mbind, M_bind. rewrite H by left.
    rewrite IH by (intros; apply H; by right).
    by rewrite <- app_assoc.
Qed.

Lemma for_each_print {A} (body : A -> M unit) (line : A -> text) st xs :
  (∀ x, x ∈ xs → ∀ lines,
     body x (emit lines st) = Ok tt (emit (lines ++ [line x]) st)) →
  for_each xs body st = Ok tt (emit (line <$> xs) st).
Proof.
  intros H. rewrite <- (emit_nil st) at 1.
  by rewrite (for_each_emit body line st xs H []).
Qed.

Lemma update_ok st s so message :
  student_objs st !! s = Some so →
  Observer.update s message st = Ok tt (emit [notice st message s] st).
Proof.
  intros H. unfold Observer.update, notice, student_name. munfold.
  by rewrite H.
Qed.

Lemma notify_ok st c co message :
  course_objs st !! c = Some co →
  Forall (live (student_objs st)) (observers co) →
  Course.notify c message st =
    Ok tt (emit (notice st message <$> observers co) st).
Proof.
  intros Hc L. unfold Course.notify. munfold. rewrite Hc.
  apply for_each_print. intros o Ho lines.
  rewrite Forall_forall in L. apply L, live_lookup in Ho as [so Hso].
  rewrite (update_ok _ _ so) by done.
  by rewrite emit_emit.
Qed.

Lemma attach_ok st c co o :
  course_objs st !! c = Some co →
  Course.attach c o st =
    Ok tt (if decide (o ∈ observers co) then st
           else upd_course c (with_observer o co) st).
Proof.
  intros Hc. unfold Course.attach, with_observer. munfold. rewrite Hc.
  by destruct (decide (o ∈ observers co)).
Qed.

Lemma add_student_present st c co s :
  course_objs st !! c = Some co → s ∈ students co →
  Course.add_student c s st = Ok tt st.
Proof.
  intros Hc Hs. unfold Course.add_student. munfold. rewrite Hc.
  by rewrite decide_True.
Qed.

Lemma add_student_absent st c co s :
  course_objs st !! c = Some co → s ∉ students co →
  Forall (live (student_objs st)) (observers co) → live (student_objs st) s →
  Course.add_student c s st =
    Ok tt (emit (notice st [Str "Enrolled in "; Str (course_name co)]
                   <$> observers (with_student s co))
             (upd_course c (with_student s co) st)).
Proof.
  intros Hc Hs L Ls. unfold Course.add_student. munfold. rewrite Hc.
  rewrite decide_False by done.
  pose proof (lookup_lt_Some _ _ _ Hc) as Hlt.
  set (co1 := mkCourse _ _ _ (students co ++ [s]) _).
  rewrite (attach_ok _ c co1) by (simpl; by rewrite list_lookup_insert_eq).
  change (with_student s co) with (with_observer s co1).
  assert (L' : Forall (live (student_objs st)) (observers (with_observer s co1))).
  { unfold with_observer. simpl. case_decide; [done|].
    apply Forall_app. split; [done|]. by apply Forall_singleton. }
  destruct (decide (s ∈ observers co1)) as [Hin|Hin].
  - assert (E : with_observer s co1 = co1).
    { unfold with_observer. rewrite decide_True by done. by destruct co1. }
    rewrite E in *.
    rewrite (notify_ok _ c co1); [done| |done].
    simpl. by rewrite list_lookup_insert_eq.
  - rewrite (notify_ok _ c (with_observer s co1)); [|simpl|done].
    + unfold upd_course. simpl. by rewrite list_insert_insert_eq.
    + rewrite list_insert_insert_eq. by rewrite list_lookup_insert_eq.
Qed.

Lemma remove_student_absent st c co s :
  course_objs st !! c = Some co → s ∉ students co →
  Course.remove_student c s st = Ok tt st.
Proof.
  intros Hc Hs. unfold Course.remove_student. munfold. rewrite Hc.
  by rewrite decide_False.
Qed.

Lemma remove_student_present st c co s :
  course_objs st !! c = Some co → s ∈ students co →
  Forall (live (student_objs st)) (observers co) →
  Course.remove_student c s st =
    Ok tt (emit (notice st [Str "Dropped from "; Str (course_name co)]
                   <$> observers co)
             (upd_course c (without_student s co) st)).
Proof.
  intros Hc Hs L. unfold Course.remove_student. munfold. rewrite Hc.
  rewrite decide_True by done.
  pose proof (lookup_lt_Some _ _ _ Hc) as Hlt.
  rewrite (notify_ok _ c (without_student s co)); [done| |done].
  simpl. by rewrite list_lookup_insert_eq.
Qed.

Lemma add_course_present st s so c co :
  student_objs st !! s = Some so → course_objs st !! c = Some co →
  dict_mem (course_code co) (courses so) = true →
  Student.add_course s c st =
    Ok tt (emit [[Str "Already enrolled in this course"]] st).
Proof.
  intros Hs Hc Hm. unfold Student.add_course. munfold.
  by rewrite Hs, Hc, Hm.
Qed.

Lemma add_course_absent st s so c co :
  student_objs st !! s = Some so → course_objs st !! c = Some co →
  dict_mem (course_code co) (courses so) = false →
  Student.add_course s c st =
    Course.add_student c s
      (upd_student s (with_course (course_code co) c so) st).
Proof.
  intros Hs Hc Hm. unfold Student.add_course. munfold.
  by rewrite Hs, Hc, Hm.
Qed.

Lemma drop_course_absent st s so code :
  student_objs st !! s = Some so → dict_get code (courses so) = None →
  Student.drop_course s code st = Ok tt (emit [[Str "Course not found"]] st).
Proof.
  intros Hs Hg. unfold Student.drop_course. munfold. by rewrite Hs, Hg.
Qed.

Lemma drop_course_present st s so code c :
  student_objs st !! s = Some so → dict_get code (courses so) = Some c →
  Student.drop_course s code st =
    Course.remove_student c s (upd_student s (without_course code so) st).
Proof.
  intros Hs Hg. unfold Student.drop_course. munfold. by rewrite Hs, Hg.
Qed.

Lemma assign_grade_present st t to s so code grade :
  teacher_objs st !! t = Some to → student_objs st !! s = Some so →
  dict_mem code (courses so) = true →
  Teacher.assign_grade t s code grade st =
    Ok tt (emit [notice st [Str "Grade "; Num grade; Str " assigned for ";
                            Str code] s]
             (upd_student s (with_grade code grade so) st)).
Proof.
  intros Ht Hs Hm. unfold Teacher.assign_grade, Student.update. munfold.
  rewrite Ht, Hs, Hm.
  pose proof (lookup_lt_Some _ _ _ Hs) as Hlt.
  rewrite (update_ok _ s (with_grade code grade so))
    by (simpl; by rewrite list_lookup_insert_eq).
  unfold notice, student_name. simpl.
  by rewrite list_lookup_insert_eq, Hs.
Qed.

Lemma assign_grade_absent st t to s so code grade :
  teacher_objs st !! t = Some to → student_objs st !! s = Some so →
  dict_mem code (courses so) = false →
  Teacher.assign_grade t s code grade st =
    Ok tt (emit [[Str "Student not enrolled in this course"]] st).
Proof.
  intros Ht Hs Hm. unfold Teacher.assign_grade. munfold.
  by rewrite Ht, Hs, Hm.
Qed.

(** ** The invariant is kept by every method *)

Lemma wf_course st c co :
  wf st → course_objs st !! c = Some co → course_ok (student_objs st) co.
Proof. intros W H. by eapply (Forall_lookup_1 _ _ _ _ (wf_courses _ W)). Qed.

Lemma wf_student st s so :
  wf st → student_objs st !! s = Some so → student_ok (course_objs st) so.
Proof. intros W H. by eapply (Forall_lookup_1 _ _ _ _ (wf_students _ W)). Qed.

Lemma wf_teacher st t to :
  wf st → teacher_objs st !! t = Some to → teacher_ok (course_objs st) to.
Proof. intros W H. by eapply (Forall_lookup_1 _ _ _ _ (wf_teachers _ W)). Qed.

Lemma wf_uni st u uo :
  wf st → uni_objs st !! u = Some uo →
  uni_ok (student_objs st) (teacher_objs st) (course_objs st) uo.
Proof. intros W H. by eapply (Forall_lookup_1 _ _ _ _ (wf_unis _ W)). Qed.

Lemma with_observer_ok ss o co :
  course_ok ss co → live ss o → course_ok ss (with_observer o co).
Proof.
  intros (N & Sub & L) Lo. unfold with_observer. split; [done|]. simpl.
  case_decide; [done|]. split.
  - intros x Hx. apply elem_of_app. left. by apply Sub.
  - apply Forall_app. split; [done|]. by apply Forall_singleton.
Qed.

Lemma with_student_ok ss s co :
  course_ok ss co → s ∉ students co → live ss s →
  course_ok ss (with_student s co).
Proof.
  intros (N & Sub & L) Hs Ls. unfold with_student, with_observer. simpl.
  split; simpl.
  - apply NoDup_app. split; [done|]. split; [|apply NoDup_singleton].
    intros x Hx Hx'. apply list_elem_of_singleton in Hx'. by subst.
  - split.
    + intros x Hx. apply elem_of_app in Hx as [Hx|Hx].
      * case_decide; [by apply Sub|]. apply elem_of_app. left. by apply Sub.
      * apply list_elem_of_singleton in Hx. subst.
        case_decide; [done|]. apply elem_of_app. right. left.
    + case_decide; [done|].
      apply Forall_app. split; [done|]. by apply Forall_singleton.
Qed.

Lemma without_student_ok ss s co :
  course_ok ss co → course_ok ss (without_student s co).
Proof.
  intros (N & Sub & L). unfold without_student. split; simpl.
  - by apply remove_first_NoDup.
  - split; [|done]. intros x Hx. apply Sub. by eapply remove_first_elem.
Qed.

Lemma Course_attach_wf st c o :
  wf st → live (course_objs st) c → live (student_objs st) o →
  returns_wf (Course.attach c o) st.
Proof.
  intros W Lc Lo. apply live_lookup in Lc as [co Hc].
  exists tt. eexists. split; [by apply attach_ok|].
  case_decide; [done|].
  eapply wf_upd_course; [done..|].
  apply with_observer_ok; [by eapply wf_course | done].
Qed.

Lemma Course_notify_wf st c message :
  wf st → live (course_objs st) c → returns_wf (Course.notify c message) st.
Proof.
  intros W Lc. apply live_lookup in Lc as [co Hc].
  destruct (wf_course _ _ _ W Hc) as (N & Sub & L).
  exists tt. eexists. split; [by apply notify_ok|]. by apply wf_emit.
Qed.

Lemma Course_add_student_wf st c s :
  wf st → live (course_objs st) c → live (student_objs st) s →
  returns_wf (Course.add_student c s) st.
Proof.
  intros W Lc Ls. apply live_lookup in Lc as [co Hc].
  pose proof (wf_course _ _ _ W Hc) as Hok.
  destruct (decide (s ∈ students co)) as [Hin|Hin].
  - exists tt, st. split; [by eapply add_student_present | done].
  - exists tt. eexists. split.
    + apply add_student_absent; [done..| |done]. apply Hok.
    + apply wf_emit. eapply wf_upd_course; [done..|].
      by apply with_student_ok.
Qed.

Lemma Course_remove_student_wf st c s :
  wf st → live (course_objs st) c → returns_wf (Course.remove_student c s) st.
Proof.
  intros W Lc. apply live_lookup in Lc as [co Hc].
  pose proof (wf_course _ _ _ W Hc) as Hok.
  destruct (decide (s ∈ students co)) as [Hin|Hin].
  - exists tt. eexists. split.
    + apply remove_student_present; [done..|]. apply Hok.
    + apply wf_emit. eapply wf_upd_course; [done..|].
      by apply without_student_ok.
  - exists tt, st. split; [by eapply remove_student_absent | done].
Qed.

Lemma Student_add_course_wf st s c :
  wf st → live (student_objs st) s → live (course_objs st) c →
  returns_wf (Student.add_course s c) st.
Proof.
  intros W Ls Lc. pose proof Ls as Ls'. pose proof Lc as Lc'.
  apply live_lookup in Ls as [so Hs]. apply live_lookup in Lc as [co Hc].
  destruct (dict_mem (course_code co) (courses so)) eqn:Hm.
  - exists tt. eexists. split; [by eapply add_course_present|].
    by apply wf_emit.
  - unfold returns_wf. rewrite (add_course_absent _ _ so _ co) by done.
    apply Course_add_student_wf.
    + eapply wf_upd_student; [done..|].
      destruct (wf_student _ _ _ W Hs) as [K N]. split; [|done].
      by apply keyed_set.
    + done.
    + unfold live. simpl. by rewrite length_insert.
Qed.

Lemma Student_drop_course_wf st s code :
  wf st → live (student_objs st) s →
  returns_wf (Student.drop_course s code) st.
Proof.
  intros W Ls. apply live_lookup in Ls as [so Hs].
  destruct (wf_student _ _ _ W Hs) as [K N].
  destruct (dict_get code (courses so)) as [c|] eqn:Hg.
  - unfold returns_wf. rewrite (drop_course_present _ _ so _ c) by done.
    destruct (keyed_get _ _ _ _ _ K Hg) as (co & Hc & _).
    apply Course_remove_student_wf.
    + eapply wf_upd_student; [done..|]. split; [|done]. by apply keyed_pop.
    + by eapply live_Some.
  - exists tt. eexists. split; [by eapply drop_course_absent|].
    by apply wf_emit.
Qed.

Lemma Teacher_assign_grade_wf st t s code grade :
  wf st → live (teacher_objs st) t → live (student_objs st) s →
  returns_wf (Teacher.assign_grade t s code grade) st.
Proof.
  intros W Lt Ls.
  apply live_lookup in Ls as [so Hs]. apply live_lookup in Lt as [to Ht].
  destruct (wf_student _ _ _ W Hs) as [K N].
  destruct (dict_mem code (courses so)) eqn:Hm.
  - exists tt. eexists. split; [by eapply assign_grade_present|].
    apply wf_emit. eapply wf_upd_student; [done..|]. split; [done|].
    by apply dict_set_NoDup.
  - exists tt. eexists. split; [by eapply assign_grade_absent|].
    by apply wf_emit.
Qed.

(** The methods that only print. *)

Lemma for_each_lookup_print {A} (objs : State -> list A) (get : ref -> M A)
    (line : A -> text) xs st :
  (∀ lines, objs (emit lines st) = objs st) →
  (∀ r st', get r st' = deref (objs st' !! r) st') →
  Forall (live (objs st)) xs →
  ∃ lines,
    for_each xs (fun r => o ← get r; print (line o)) st = Ok tt (emit lines st).
Proof.
  intros Hobjs Hget L.
  exists ((fun r => match objs st !! r with Some o => line o | None => [] end)
            <$> xs).
  apply for_each_print. intros r Hr lines.
  rewrite Forall_forall in L. apply L, live_lookup in Hr as [o Ho].
  munfold. rewrite Hget, Hobjs, Ho. simpl. by rewrite emit_emit.
Qed.

Lemma prints_wf (m : M unit) st :
  wf st → (∃ lines, m st = Ok tt (emit lines st)) → returns_wf m st.
Proof.
  intros W [lines E]. exists tt. eexists. split; [done | by apply wf_emit].
Qed.

Lemma header_then_loop (header : text) (loop : M unit) st :
  (∃ lines, loop (emit [header] st) = Ok tt (emit lines (emit [header] st))) →
  ∃ lines, (print header;; loop) st = Ok tt (emit lines st).
Proof.
  intros [lines E]. exists ([header] ++ lines). munfold.
  by rewrite E, emit_emit.
Qed.

Lemma Course_view_students_prints st c :
  wf st → live (course_objs st) c →
  ∃ lines, Course.view_students c st = Ok tt (emit lines st).
Proof.
  intros W Lc. apply live_lookup in Lc as [co Hc].
  destruct (wf_course _ _ _ W Hc) as (N & Sub & L).
  unfold Course.view_students. unfold mbind at 1. unfold M_bind, get_course, deref.
  rewrite Hc. apply header_then_loop.
  apply (for_each_lookup_print student_objs get_student); [done..|].
  simpl. apply Forall_forall. intros x Hx.
  rewrite Forall_forall in L. by apply L, Sub.
Qed.

Lemma Student_view_courses_prints st s :
  wf st → live (student_objs st) s →
  ∃ lines, Student.view_courses s st = Ok tt (emit lines st).
Proof.
  intros W Ls. apply live_lookup in Ls as [so Hs].
  destruct (wf_student _ _ _ W Hs) as [K N].
  unfold Student.view_courses. unfold mbind at 1. unfold M_bind, get_student, deref.
  rewrite Hs. apply header_then_loop.
  apply (for_each_lookup_print course_objs get_course); [done..|].
  simpl. by eapply keyed_values_live.
Qed.

Lemma Student_view_grades_prints st s :
  live (student_objs st) s →
  ∃ lines, Student.view_grades s st = Ok tt (emit lines st).
Proof.
  intros Ls. apply live_lookup in Ls as [so Hs].
  unfold Student.view_grades. unfold mbind at 1. unfold M_bind, get_student, deref.
  rewrite Hs. apply header_then_loop.
  eexists. apply (for_each_print _
    (fun '(code, grade) => [Str code; Str ": "; Num grade])).
  intros [code grade] _ lines. unfold print. by rewrite emit_emit.
Qed.

Lemma Teacher_view_courses_prints st t :
  wf st → live (teacher_objs st) t →
  ∃ lines, Teacher.view_courses t st = Ok tt (emit lines st).
Proof.
  intros W Lt. apply live_lookup in Lt as [to Ht].
  pose proof (wf_teacher _ _ _ W Ht) as L.
  unfold Teacher.view_courses. unfold mbind at 1. unfold M_bind, get_teacher, deref.
  rewrite Ht. apply header_then_loop.
  by apply (for_each_lookup_print course_objs get_course).
Qed.

Lemma list_students_prints st u :
  wf st → live (uni_objs st) u →
  ∃ lines, UniversitySystem.list_students u st = Ok tt (emit lines st).
Proof.
  intros W Lu. apply live_lookup in Lu as [uo Hu].
  destruct (wf_uni _ _ _ W Hu) as (K1 & K2 & K3).
  unfold UniversitySystem.list_students. unfold mbind at 1.
  unfold M_bind, get_uni, deref.
  rewrite Hu. apply header_then_loop.
  apply (for_each_lookup_print student_objs get_student); [done..|].
  simpl. by eapply keyed_values_live.
Qed.

Lemma list_teachers_prints st u :
  wf st → live (uni_objs st) u →
  ∃ lines, UniversitySystem.list_teachers u st = Ok tt (emit lines st).
Proof.
  intros W Lu. apply live_lookup in Lu as [uo Hu].
  destruct (wf_uni _ _ _ W Hu) as (K1 & K2 & K3).
  unfold UniversitySystem.list_teachers. unfold mbind at 1.
  unfold M_bind, get_uni, deref.
  rewrite Hu. apply header_then_loop.
  apply (for_each_lookup_print teacher_objs get_teacher); [done..|].
  simpl. by eapply keyed_values_live.
Qed.

Lemma list_courses_prints st u :
  wf st → live (uni_objs st) u →
  ∃ lines, UniversitySystem.list_courses u st = Ok tt (emit lines st).
Proof.
  intros W Lu. apply live_lookup in Lu as [uo Hu].
  destruct (wf_uni _ _ _ W Hu) as (K1 & K2 & K3).
  unfold UniversitySystem.list_courses. unfold mbind at 1.
  unfold M_bind, get_uni, deref.
  rewrite Hu. apply header_then_loop.
  apply (for_each_lookup_print course_objs get_course); [done..|].
  simpl. by eapply keyed_values_live.
Qed.

Lemma display_info_prints st who :
  args_live (Person_display_info who) st →
  ∃ lines, display_info who st = Ok tt (emit lines st).
Proof.
  destruct who as [r|r|r]; simpl; intros L;
    apply live_lookup in L as [o Ho];
    unfold display_info, Person.display_info; munfold; rewrite Ho; by eexists.
Qed.

(** The teacher's list, the registry and the constructors. *)

Lemma Teacher_assign_course_wf st t c :
  wf st → live (teacher_objs st) t → live (course_objs st) c →
  returns_wf (Teacher.assign_course t c) st.
Proof.
  intros W Lt Lc. apply live_lookup in Lt as [to Ht].
  exists tt. eexists. unfold Teacher.assign_course. munfold. rewrite Ht.
  split; [done|]. eapply wf_upd_teacher; [done..|].
  unfold teacher_ok. simpl. apply Forall_app.
  split; [by eapply wf_teacher | by apply Forall_singleton].
Qed.

Lemma uni_add_student_wf st u s :
  wf st → live (uni_objs st) u → live (student_objs st) s →
  returns_wf (UniversitySystem.add_student u s) st.
Proof.
  intros W Lu Ls.
  apply live_lookup in Lu as [uo Hu]. apply live_lookup in Ls as [so Hs].
  destruct (wf_uni _ _ _ W Hu) as (K1 & K2 & K3).
  exists tt. eexists. unfold UniversitySystem.add_student. munfold.
  rewrite Hu, Hs. split; [done|]. apply wf_upd_uni; [done|].
  split; [|done]. simpl.
  by apply (keyed_set (fun s => person_id (student_person s))).
Qed.

Lemma uni_add_teacher_wf st u t :
  wf st → live (uni_objs st) u → live (teacher_objs st) t →
  returns_wf (UniversitySystem.add_teacher u t) st.
Proof.
  intros W Lu Lt.
  apply live_lookup in Lu as [uo Hu]. apply live_lookup in Lt as [to Ht].
  destruct (wf_uni _ _ _ W Hu) as (K1 & K2 & K3).
  exists tt. eexists. unfold UniversitySystem.add_teacher. munfold.
  rewrite Hu, Ht. split; [done|]. apply wf_upd_uni; [done|].
  split; [done|]. split; [|done]. simpl.
  by apply (keyed_set (fun t => person_id (teacher_person t))).
Qed.

Lemma uni_add_course_wf st u c :
  wf st → live (uni_objs st) u → live (course_objs st) c →
  returns_wf (UniversitySystem.add_course u c) st.
Proof.
  intros W Lu Lc.
  apply live_lookup in Lu as [uo Hu]. apply live_lookup in Lc as [co Hc].
  destruct (wf_uni _ _ _ W Hu) as (K1 & K2 & K3).
  exists tt. eexists. unfold UniversitySystem.add_course. munfold.
  rewrite Hu, Hc. split; [done|]. apply wf_upd_uni; [done|].
  split; [done|]. split; [done|]. simpl. by apply keyed_set.
Qed.

Lemma uni_remove_student_wf st u i :
  wf st → live (uni_objs st) u →
  returns_wf (UniversitySystem.remove_student u i) st.
Proof.
  intros W Lu. apply live_lookup in Lu as [uo Hu].
  destruct (wf_uni _ _ _ W Hu) as (K1 & K2 & K3).
  exists tt. eexists. unfold UniversitySystem.remove_student. munfold.
  rewrite Hu. split; [done|]. apply wf_upd_uni; [done|].
  split; [|done]. simpl. by apply keyed_pop.
Qed.

Lemma uni_remove_teacher_wf st u i :
  wf st → live (uni_objs st) u →
  returns_wf (UniversitySystem.remove_teacher u i) st.
Proof.
  intros W Lu. apply live_lookup in Lu as [uo Hu].
  destruct (wf_uni _ _ _ W Hu) as (K1 & K2 & K3).
  exists tt. eexists. unfold UniversitySystem.remove_teacher. munfold.
  rewrite Hu. split; [done|]. apply wf_upd_uni; [done|].
  split; [done|]. split; [|done]. simpl. by apply keyed_pop.
Qed.

Lemma uni_remove_course_wf st u code :
  wf st → live (uni_objs st) u →
  returns_wf (UniversitySystem.remove_course u code) st.
Proof.
  intros W Lu. apply live_lookup in Lu as [uo Hu].
  destruct (wf_uni _ _ _ W Hu) as (K1 & K2 & K3).
  exists tt. eexists. unfold UniversitySystem.remove_course. munfold.
  rewrite Hu. split; [done|]. apply wf_upd_uni; [done|].
  split; [done|]. split; [done|]. simpl. by apply keyed_pop.
Qed.

Lemma uni_new_wf st : wf st → returns_wf UniversitySystem.__new__ st.
Proof.
  intros W. unfold returns_wf, UniversitySystem.__new__. munfold.
  destruct (_instance st) as [r|] eqn:E; simpl.
  - by exists r, st.
  - eexists _, _. split; [done|]. by apply wf_alloc_uni.
Qed.

Lemma Student_init_wf st n i e g :
  wf st → returns_wf (Student.__init__ n i e g) st.
Proof.
  intros W. eexists _, _. split; [done|]. apply wf_alloc_student; [done|].
  split; [apply keyed_nil | apply NoDup_nil_2].
Qed.

Lemma Teacher_init_wf st n i e :
  wf st → returns_wf (Teacher.__init__ n i e) st.
Proof.
  intros W. eexists _, _. split; [done|]. apply wf_alloc_teacher; [done|].
  apply Forall_nil_2.
Qed.

Lemma Authority_init_wf st n i e :
  wf st → returns_wf (Authority.__init__ n i e) st.
Proof.
  intros W. eexists _, _. split; [done|]. by apply wf_alloc_authority.
Qed.

Lemma Course_init_wf st code n cr :
  wf st → returns_wf (Course.__init__ code n cr) st.
Proof.
  intros W. eexists _, _. split; [done|]. apply wf_alloc_course; [done|].
  split; [apply NoDup_nil_2|]. split; [done | apply Forall_nil_2].
Qed.

Lemma create_course_wf st a code n cr :
  wf st → live (authority_objs st) a →
  returns_wf (Authority.create_course a code n cr) st.
Proof.
  intros W La. apply live_lookup in La as [ao Ha].
  unfold returns_wf, Authority.create_course. munfold. rewrite Ha.
  by apply Course_init_wf.
Qed.

Lemma returns_wf_drop {A} (m : M A) st :
  returns_wf m st → returns_wf (m;; mret tt) st.
Proof.
  intros (a & st' & E & W). exists tt, st'. munfold. by rewrite E.
Qed.

Lemma create_user_wf st role n i e :
  wf st → role ∈ roles → returns_wf (UserFactory.create_user role n i e) st.
Proof.
  intros W Hr. unfold UserFactory.create_user.
  repeat case_decide.
  - destruct (Student_init_wf st n i e RegularGPA_obj W) as (r & st' & E & W').
    injection E as <- <-. by eexists _, _.
  - destruct (Teacher_init_wf st n i e W) as (r & st' & E & W').
    injection E as <- <-. by eexists _, _.
  - destruct (Authority_init_wf st n i e W) as (r & st' & E & W').
    injection E as <- <-. by eexists _, _.
  - unfold roles in Hr. rewrite !elem_of_cons in Hr.
    destruct Hr as [?|[?|[?|Hr]]]; try done. by apply elem_of_nil in Hr.
Qed.

Lemma exec_wf c st :
  wf st → args_live c st → ¬ bad_role c → returns_wf (exec c) st.
Proof.
  intros W L B. destruct c; simpl in *.
  - by apply returns_wf_drop, Student_init_wf.
  - by apply returns_wf_drop, Teacher_init_wf.
  - by apply returns_wf_drop, Authority_init_wf.
  - by apply returns_wf_drop, Course_init_wf.
  - apply returns_wf_drop, create_user_wf; [done|].
    destruct (decide (role ∈ roles)); [done | by destruct B].
  - by apply prints_wf, display_info_prints.
  - by apply returns_wf_drop, create_course_wf.
  - destruct L. by apply Course_attach_wf.
  - by apply Course_notify_wf.
  - destruct L. by apply Course_add_student_wf.
  - destruct L. by apply Course_remove_student_wf.
  - by apply prints_wf, Course_view_students_prints.
  - destruct L. by apply Student_add_course_wf.
  - by apply Student_drop_course_wf.
  - apply live_lookup in L as [so Hs]. apply prints_wf; [done|].
    eexists. unfold Student.update. by eapply update_ok.
  - by apply prints_wf, Student_view_courses_prints.
  - by apply prints_wf, Student_view_grades_prints.
  - apply live_lookup in L as [so Hs]. exists tt, st.
    unfold Student.calculate_gpa. munfold. by rewrite Hs.
  - destruct L. by apply Teacher_assign_course_wf.
  - destruct L. by apply Teacher_assign_grade_wf.
  - by apply prints_wf, Teacher_view_courses_prints.
  - by apply returns_wf_drop, uni_new_wf.
  - destruct L. by apply uni_add_student_wf.
  - by apply uni_remove_student_wf.
  - destruct L. by apply uni_add_teacher_wf.
  - by apply uni_remove_teacher_wf.
  - destruct L. by apply uni_add_course_wf.
  - by apply uni_remove_course_wf.
  - by apply prints_wf, list_students_prints.
  - by apply prints_wf, list_teachers_prints.
  - by apply prints_wf, list_courses_prints.
Qed.

(** ** Properties of the store that every method keeps *)

Section frame.
Variable I : State -> Prop.
Hypothesis I_upd_student : ∀ r s st, I st → I (upd_student r s st).
Hypothesis I_upd_course : ∀ r c st, I st → I (upd_course r c st).
Hypothesis I_upd_teacher : ∀ r t st, I st → I (upd_teacher r t st).
Hypothesis I_upd_uni : ∀ r u st, I st → I (upd_uni r u st).
Hypothesis I_alloc_student : ∀ s st, I st → I (alloc_student s st).
Hypothesis I_alloc_course : ∀ c st, I st → I (alloc_course c st).
Hypothesis I_alloc_teacher : ∀ t st, I st → I (alloc_teacher t st).
Hypothesis I_alloc_authority : ∀ a st, I st → I (alloc_authority a st).
Hypothesis I_emit : ∀ lines st, I st → I (emit lines st).
Hypothesis I_new : inv I UniversitySystem.__new__.

Lemma inv_ret {A} (a : A) : inv I (mret a).
Proof. by intros st H. Qed.

Lemma inv_bind {A B} (m : M A) (k : A -> M B) :
  inv I m → (∀ a, inv I (k a)) → inv I (m ≫= k).
Proof.
  intros Hm Hk st H. unfold mbind, M_bind. specialize (Hm st H).
  destruct (m st) as [a st'| |]; [by apply Hk | done..].
Qed.

Lemma inv_for_each {A} (xs : list A) (body : A -> M unit) :
  (∀ x, inv I (body x)) → inv I (for_each xs body).
Proof.
  intros Hb. induction xs as [|x xs IH]; simpl.
  - apply inv_ret.
  - apply inv_bind; [apply Hb | done].
Qed.

Lemma inv_deref {A} (get : State -> option A) :
  inv I (fun st => deref (get st) st).
Proof. intros st H. unfold deref. by destruct (get st). Qed.

Lemma inv_get_student r : inv I (get_student r).
Proof. apply (inv_deref (fun st => student_objs st !! r)). Qed.
Lemma inv_get_course r : inv I (get_course r).
Proof. apply (inv_deref (fun st => course_objs st !! r)). Qed.
Lemma inv_get_teacher r : inv I (get_teacher r).
Proof. apply (inv_deref (fun st => teacher_objs st !! r)). Qed.
Lemma inv_get_authority r : inv I (get_authority r).
Proof. apply (inv_deref (fun st => authority_objs st !! r)). Qed.
Lemma inv_get_uni r : inv I (get_uni r).
Proof. apply (inv_deref (fun st => uni_objs st !! r)). Qed.

Lemma inv_put_student r s : inv I (put_student r s).
Proof. intros st H. by apply I_upd_student. Qed.
Lemma inv_put_course r c : inv I (put_course r c).
Proof. intros st H. by apply I_upd_course. Qed.
Lemma inv_put_teacher r t : inv I (put_teacher r t).
Proof. intros st H. by apply I_upd_teacher. Qed.
Lemma inv_put_uni r u : inv I (put_uni r u).
Proof. intros st H. by apply I_upd_uni. Qed.

Lemma inv_new_student s : inv I (new_student s).
Proof. intros st H. by apply I_alloc_student. Qed.
Lemma inv_new_course c : inv I (new_course c).
Proof. intros st H. by apply I_alloc_course. Qed.
Lemma inv_new_teacher t : inv I (new_teacher t).
Proof. intros st H. by apply I_alloc_teacher. Qed.
Lemma inv_new_authority a : inv I (new_authority a).
Proof. intros st H. by apply I_alloc_authority. Qed.

Lemma inv_print line : inv I (print line).
Proof. intros st H. by apply I_emit. Qed.

#[local] Hint Resolve inv_ret inv_get_student inv_get_course inv_get_teacher
  inv_get_authority inv_get_uni inv_put_student inv_put_course
  inv_put_teacher inv_put_uni inv_new_student inv_new_course
  inv_new_teacher inv_new_authority inv_print I_new : inv_db.

Ltac inv_step :=
  match goal with
  | |- inv _ (mbind _ _) => apply inv_bind; [|intros ?]
  | |- inv _ (for_each _ _) => apply inv_for_each; intros ?
  | |- inv _ (if ?b then _ else _) => destruct b
  | |- inv _ (match ?x with _ => _ end) => destruct x
  | |- inv _ _ => solve [auto with inv_db]
  end.

Lemma inv_update s message : inv I (Observer.update s message).
Proof. unfold Observer.update. repeat inv_step. Qed.

Lemma inv_attach c o : inv I (Course.attach c o).
Proof. unfold Course.attach. repeat inv_step. Qed.

Lemma inv_notify c message : inv I (Course.notify c message).
Proof. unfold Course.notify. repeat inv_step. apply inv_update. Qed.

Lemma inv_add_student c s : inv I (Course.add_student c s).
Proof.
  unfold Course.add_student. repeat inv_step;
    [apply inv_attach | apply inv_notify].
Qed.

Lemma inv_remove_student c s : inv I (Course.remove_student c s).
Proof. unfold Course.remove_student. repeat inv_step. apply inv_notify. Qed.

Lemma inv_exec c : ¬ bad_role c → inv I (exec c).
Proof.
  intros B. destruct c; simpl;
    try (unfold Student.__init__, Teacher.__init__, Authority.__init__,
           Course.__init__, display_info, Person.display_info,
           Authority.create_course, Course.__init__, Course.view_students,
           Student.add_course, Student.drop_course, Student.update,
           Student.view_courses, Student.view_grades, Student.calculate_gpa,
           Teacher.assign_course, Teacher.assign_grade, Student.update,
           Teacher.view_courses, UniversitySystem.add_student,
           UniversitySystem.remove_student, UniversitySystem.add_teacher,
           UniversitySystem.remove_teacher, UniversitySystem.add_course,
           UniversitySystem.remove_course, UniversitySystem.list_students,
           UniversitySystem.list_teachers, UniversitySystem.list_courses;
         repeat inv_step;
         first [apply inv_update | apply inv_attach | apply inv_notify
               | apply inv_add_student | apply inv_remove_student]).
  simpl in B. unfold UserFactory.create_user.
  unfold Student.__init__, Teacher.__init__, Authority.__init__.
  repeat case_decide; repeat inv_step.
  destruct B. unfold roles. rewrite !elem_of_cons.
  intros [?|[?|[?|Hr]]]; try done. by apply elem_of_nil in Hr.
Qed.
End frame.

(** ** Reachable stores are well formed *)

Lemma exec_bad_role c st : bad_role c → ∃ e, exec c st = Raise e st.
Proof.
  destruct c; simpl; try done. intros B.
  exists (ValueError "Invalid user role").
  unfold UserFactory.create_user, roles in *.
  rewrite !not_elem_of_cons in B. destruct B as (B1 & B2 & B3 & _).
  by rewrite !decide_False by done.
Qed.

Lemma bad_role_dec c : {bad_role c} + {¬ bad_role c}.
Proof.
  destruct c; simpl; try (right; tauto).
  destruct (decide (role ∈ roles)); [right; tauto | by left].
Qed.

Lemma exec_step_wf c st st' :
  wf st → args_live c st → exec c st = Ok tt st' → wf st'.
Proof.
  intros W L E. destruct (bad_role_dec c) as [B|B].
  - destruct (exec_bad_role c st B) as [e E']. congruence.
  - destruct (exec_wf c st W L B) as (a & st2 & E2 & W2). congruence.
Qed.

Lemma reachable_wf st : reachable st → wf st.
Proof.
  induction 1 as [|st c st' R IH L E]; [apply wf_initial|].
  by eapply exec_step_wf.
Qed.

Lemma trace_reachable cs : ∀ st st',
  reachable st → trace cs st = Some st' → reachable st'.
Proof.
  induction cs as [|c cs IH]; simpl; intros st st' R E.
  - by injection E as <-.
  - case_decide; [|done].
    destruct (exec c st) as [[] st1| |] eqn:E1; try done.
    apply (IH st1); [|done]. by eapply reachable_step.
Qed.

Lemma campus_reachable : reachable campus.
Proof.
  apply (trace_reachable campus_calls initial); [constructor|].
  vm_compute. reflexivity.
Qed.

Lemma campus_twins_reachable : reachable campus_twins.
Proof.
  apply (trace_reachable twins_calls initial); [constructor|].
  vm_compute. reflexivity.
Qed.

Lemma one_sided_reachable : reachable one_sided.
Proof.
  apply (trace_reachable one_sided_calls initial); [constructor|].
  vm_compute. reflexivity.
Qed.

(** ** The regular GPA strategy *)





(** ** Grade assignment *)



(** ** The demonstration *)

Lemma main_runs :
  ∃ st, Main.main initial = Ok (0, 0) st ∧
        student_objs st !! 0 =
          Some (mkStudent (mkPerson "MS Dhoni" "S01" "msdhoni7@uni.edu")
                  [("CSE110", 0)] [] RegularGPA_obj) ∧
        stdout st !! 1 = Some [Str "Student not enrolled in this course"].
Proof. eexists. split; [vm_compute; reflexivity|]. split; reflexivity. Qed.

(** C3, as stated, fails: the demonstration does not record the grade. *)
Lemma demo_grade_not_recorded : ¬ demo_records_grade.
Proof.
  intros H. destruct main_runs as (st & E & Hs & _).
  destruct (H 0 0 st E) as (so & g & Hso & Hg).
  pose proof (eq_trans (eq_sym Hso) Hs) as X. injection X as ->.
  discriminate Hg.
Qed.

(** C3, amended.  In the demonstration the student is enrolled under
    the key "CSE110" only; the check of [assign_grade] compares the key
    it is given, "CSE101", with the keys of that mapping, finds none,
    and the assignment is rejected: the line "Student not enrolled in
    this course" is printed, no grade is recorded and the GPA is 0. *)
Theorem demo_grade_rejected :
  ∃ st so, Main.main initial = Ok (0, 0) st ∧
           student_objs st !! 0 = Some so ∧
           dict_keys (courses so) = ["CSE110"] ∧
           dict_mem "CSE101" (courses so) = false ∧
           grades so = [] ∧
           [Str "Student not enrolled in this course"] ∈ stdout st ∧
           Student.calculate_gpa 0 st = Ok (Some 0%Q) st.
Proof.
  destruct main_runs as (st & E & Hs & Hout).
  eexists st, _. split; [done|]. split; [done|].
  split; [done|]. split; [done|]. split; [done|]. split.
  - by eapply list_elem_of_lookup_2.
  - unfold Student.calculate_gpa. munfold. by rewrite Hs.
Qed.

(** ** Enrollment *)

Lemma remove_first_absent s l : s ∉ l → list_remove_first s l = l.
Proof.
  induction l as [|y l IH]; simpl; [done|].
  rewrite not_elem_of_cons. intros [Hne Hl].
  rewrite decide_False by done. by rewrite IH.
Qed.

Lemma count_ref_absent s l : s ∉ l → count_ref s l = 0.
Proof.
  unfold count_ref. induction l as [|y l IH]; [done|].
  rewrite not_elem_of_cons. intros [Hne Hl].
  rewrite filter_cons_False by (simpl; congruence). auto.
Qed.

Lemma count_ref_app s l1 l2 :
  count_ref s (l1 ++ l2) = count_ref s l1 + count_ref s l2.
Proof. unfold count_ref. by rewrite filter_app, length_app. Qed.

Lemma count_ref_NoDup s l : NoDup l → s ∈ l → count_ref s l = 1.
Proof.
  induction l as [|y l IH]; [by intros _ E%elem_of_nil|].
  intros N E. apply NoDup_cons in N as [N1 N2].
  change (y :: l) with ([y] ++ l). rewrite count_ref_app.
  apply elem_of_cons in E as [->|E].
  - rewrite (count_ref_absent y l) by done. unfold count_ref.
    by rewrite filter_cons_True.
  - rewrite IH by done. rewrite (count_ref_absent s [y]); [done|].
    rewrite not_elem_of_cons. split; [|apply not_elem_of_nil].
    intros ->. done.
Qed.

Lemma count_value_absent r (d : dict ref) :
  (∀ k, (k, r) ∉ d) → count_value r d = 0.
Proof.
  unfold count_value. induction d as [|[k v] d IH]; [done|]. intros H.
  rewrite filter_cons_False.
  - apply IH. intros k' E. apply (H k'). by right.
  - simpl. intros ->. apply (H k). left.
Qed.

Lemma add_student_total st c co s :
  course_objs st !! c = Some co →
  Forall (live (student_objs st)) (observers co) → live (student_objs st) s →
  ∃ st1 co1,
    Course.add_student c s st = Ok tt st1 ∧
    student_objs st1 = student_objs st ∧
    course_objs st1 = <[c:=co1]> (course_objs st) ∧
    course_code co1 = course_code co ∧
    students co1 =
      (if decide (s ∈ students co) then students co else students co ++ [s]).
Proof.
  intros Hc L Ls. destruct (decide (s ∈ students co)) as [Hin|Hin].
  - exists st, co. split; [by eapply add_student_present|].
    by rewrite list_insert_id.
  - eexists _, (with_student s co). split; [by apply add_student_absent|].
    done.
Qed.

Lemma remove_student_total st c co s :
  course_objs st !! c = Some co →
  Forall (live (student_objs st)) (observers co) →
  ∃ st1 co1,
    Course.remove_student c s st = Ok tt st1 ∧
    student_objs st1 = student_objs st ∧
    course_objs st1 = <[c:=co1]> (course_objs st) ∧
    course_code co1 = course_code co ∧
    students co1 = list_remove_first s (students co) ∧
    observers co1 = observers co.
Proof.
  intros Hc L. destruct (decide (s ∈ students co)) as [Hin|Hin].
  - eexists _, (without_student s co).
    split; [by apply remove_student_present|]. done.
  - exists st, co. split; [by eapply remove_student_absent|].
    rewrite list_insert_id by done. by rewrite remove_first_absent.
Qed.

(** Agreement of both sides survives an update of one student and one
    course that changes them together. *)
Lemma consistent_update st st1 s c so so1 co co1 :
  consistent st →
  student_objs st !! s = Some so → course_objs st !! c = Some co →
  student_objs st1 = <[s:=so1]> (student_objs st) →
  course_objs st1 = <[c:=co1]> (course_objs st) →
  course_code co1 = course_code co →
  (∀ s', s' ≠ s → s' ∈ students co1 ↔ s' ∈ students co) →
  (∀ k, k ≠ course_code co →
        dict_get k (courses so1) = dict_get k (courses so)) →
  (∀ c', c' ≠ c → dict_get (course_code co) (courses so1) = Some c' ↔
                  dict_get (course_code co) (courses so) = Some c') →
  (s ∈ students co1 ↔ dict_get (course_code co) (courses so1) = Some c) →
  consistent st1.
Proof.
  intros C Hs Hc Es Ec Hcode Hroster Hother Hsame Hpair s' c'.
  pose proof (lookup_lt_Some _ _ _ Hs) as Ls.
  pose proof (lookup_lt_Some _ _ _ Hc) as Lc.
  unfold on_roster, enrolled. rewrite Es, Ec.
  destruct (decide (c' = c)) as [->|Nc]; destruct (decide (s' = s)) as [->|Ns];
    rewrite ?list_lookup_insert_eq, ?list_lookup_insert_ne by done.
  - split.
    + intros (x & [= <-] & Hx). exists so1, co1. rewrite Hcode.
      split; [done|]. split; [done|]. by apply Hpair.
    + intros (x & y & [= <-] & [= <-] & Hg). exists co1. split; [done|].
      apply Hpair. by rewrite <- Hcode.
  - specialize (C s' c). unfold on_roster, enrolled in C. rewrite Hc in C.
    split.
    + intros (x & [= <-] & Hx). apply Hroster in Hx; [|done].
      destruct (proj1 C) as (so' & co' & Hso' & [= <-] & Hg); [by eauto|].
      exists so', co1. by rewrite Hcode.
    + intros (so' & x & Hso' & [= <-] & Hg). exists co1. split; [done|].
      apply Hroster; [done|]. rewrite Hcode in Hg.
      destruct (proj2 C) as (co' & [= <-] & Hx); [by eauto|done].
  - specialize (C s c'). unfold on_roster, enrolled in C. rewrite Hs in C.
    split.
    + intros (co' & Hco' & Hx).
      destruct (proj1 C) as (x & y & [= <-] & Hy & Hg); [by eauto|].
      exists so1, co'. split; [done|]. split; [done|].
      assert (y = co') as -> by congruence.
      destruct (decide (course_code co' = course_code co)) as [Ecode|Ncode].
      * rewrite Ecode in *. by apply Hsame.
      * by rewrite Hother.
    + intros (x & co' & [= <-] & Hco' & Hg).
      apply C. exists so, co'. split; [done|]. split; [done|].
      destruct (decide (course_code co' = course_code co)) as [Ecode|Ncode].
      * rewrite Ecode in *. by apply Hsame.
      * by rewrite <- Hother.
  - specialize (C s' c'). unfold on_roster, enrolled in C. done.
Qed.

Lemma consistent_emit lines st : consistent st → consistent (emit lines st).
Proof. done. Qed.

Lemma add_course_consistent st s c so co :
  wf st → consistent st →
  student_objs st !! s = Some so → course_objs st !! c = Some co →
  ∃ st1, Student.add_course s c st = Ok tt st1 ∧ consistent st1.
Proof.
  intros W C Hs Hc.
  destruct (dict_mem (course_code co) (courses so)) eqn:Hm.
  - eexists. split; [by eapply add_course_present|]. done.
  - rewrite (add_course_absent _ _ so _ co) by done.
    set (so1 := with_course (course_code co) c so).
    destruct (wf_course _ _ _ W Hc) as (N & Sub & L).
    destruct (add_student_total (upd_student s so1 st) c co s)
      as (st1 & co1 & E & Es & Ec & Hcode & Hst); [done| | |].
    { eapply Forall_impl; [exact L|]. intros x. unfold live. simpl.
      by rewrite length_insert. }
    { unfold live. simpl. rewrite length_insert. by eapply lookup_lt_Some. }
    exists st1. split; [done|].
    apply dict_mem_false in Hm.
    eapply (consistent_update st st1 s c so so1 co co1); try done.
    + intros s' Ns. rewrite Hst. case_decide; [done|].
      rewrite elem_of_app, list_elem_of_singleton. tauto.
    + intros k Nk. simpl. by apply dict_get_set_ne.
    + intros c' Nc. simpl. rewrite dict_get_set_eq, Hm.
      split; [intros [= ?]; done | done].
    + simpl. rewrite dict_get_set_eq, Hst. split; [done|]. intros _.
      case_decide; [done|]. apply elem_of_app. right. left.
Qed.

Lemma drop_course_consistent st s code so :
  wf st → consistent st → student_objs st !! s = Some so →
  ∃ st1, Student.drop_course s code st = Ok tt st1 ∧ consistent st1.
Proof.
  intros W C Hs. destruct (wf_student _ _ _ W Hs) as [K Ng].
  destruct (dict_get code (courses so)) as [c|] eqn:Hg.
  - rewrite (drop_course_present _ _ so _ c) by done.
    destruct (keyed_get _ _ _ _ _ K Hg) as (co & Hc & Hcode).
    set (so1 := without_course code so).
    destruct (wf_course _ _ _ W Hc) as (N & Sub & L).
    destruct (remove_student_total (upd_student s so1 st) c co s)
      as (st1 & co1 & E & Es & Ec & Hcode1 & Hst & _); [done| |].
    { eapply Forall_impl; [exact L|]. intros x. unfold live. simpl.
      by rewrite length_insert. }
    exists st1. split; [done|]. subst code.
    destruct K as [NK _].
    eapply (consistent_update st st1 s c so so1 co co1); try done.
    + intros s' Ns. rewrite Hst. split; [apply remove_first_elem|].
      by apply remove_first_elem_ne.
    + intros k Nk. simpl. by apply dict_get_pop_ne.
    + intros c' Nc. simpl. rewrite dict_get_pop_eq, Hg by done.
      split; [done | intros [= ?]; done].
    + simpl. rewrite dict_get_pop_eq, Hst by done. split; [|done].
      intros Hx. by apply remove_first_gone in Hx.
  - eexists. split; [by eapply drop_course_absent|]. done.
Qed.

Lemma wf_campus : wf campus.
Proof. apply reachable_wf, campus_reachable. Qed.

Lemma wf_campus_twins : wf campus_twins.
Proof. apply reachable_wf, campus_twins_reachable. Qed.

Lemma live_upd_student (ss : list Student) s so1 x :
  live ss x → live (<[s:=so1]> ss) x.
Proof. unfold live. by rewrite length_insert. Qed.

(** C4. Enrolling twice is idempotent.  [Student.add_course] on a course
    whose code is already a key of the student's mapping only prints
    "Already enrolled in this course"; [Course.add_student] on a student
    already on the roster changes nothing at all.  Hence a second
    enrollment, through either method, leaves every object as the first
    one left it, and with them the roster size and the number of
    enrolled courses. *)
Theorem enrollment_idempotent st s c so co :
  wf st → student_objs st !! s = Some so → course_objs st !! c = Some co →
  (dict_mem (course_code co) (courses so) = true →
     ∃ st1, Student.add_course s c st = Ok tt st1 ∧
            st1 = emit [[Str "Already enrolled in this course"]] st ∧
            roster_size st1 c = roster_size st c ∧
            course_count st1 s = course_count st s) ∧
  (s ∈ students co → Course.add_student c s st = Ok tt st) ∧
  (∃ st1 st2,
     Student.add_course s c st = Ok tt st1 ∧
     Student.add_course s c st1 = Ok tt st2 ∧
     st2 = emit [[Str "Already enrolled in this course"]] st1 ∧
     roster_size st2 c = roster_size st1 c ∧
     course_count st2 s = course_count st1 s) ∧
  (∃ st1, Course.add_student c s st = Ok tt st1 ∧
          Course.add_student c s st1 = Ok tt st1).
Proof.
  intros W Hs Hc.
  pose proof (lookup_lt_Some _ _ _ Hs) as Ls.
  pose proof (lookup_lt_Some _ _ _ Hc) as Lc.
  destruct (wf_course _ _ _ W Hc) as (N & Sub & L).
  split; [intros Hm; eexists; split; [by eapply add_course_present|done]|].
  split; [by apply add_student_present|]. split.
  - destruct (dict_mem (course_code co) (courses so)) eqn:Hm.
    + eexists _, _. split; [by eapply add_course_present|].
      split; [by eapply add_course_present|]. done.
    + rewrite (add_course_absent _ _ so _ co) by done.
      set (so1 := with_course (course_code co) c so).
      destruct (add_student_total (upd_student s so1 st) c co s)
        as (st1 & co1 & E & Es & Ec & Hcode & Hst);
        [done| |by apply live_upd_student|].
      { eapply Forall_impl; [exact L|]. intros x. apply live_upd_student. }
      eexists st1, _. split; [done|]. split; [|done].
      apply (add_course_present st1 s so1 c co1).
      * rewrite Es. simpl. by apply list_lookup_insert_eq.
      * rewrite Ec. simpl. by apply list_lookup_insert_eq.
      * rewrite Hcode. simpl. apply dict_mem_true.
        rewrite dict_get_set_eq. by eexists.
  - destruct (add_student_total st c co s)
      as (st1 & co1 & E & Es & Ec & Hcode & Hst); [done..|].
    exists st1. split; [done|].
    apply (add_student_present st1 c co1).
    + rewrite Ec. by apply list_lookup_insert_eq.
    + rewrite Hst. case_decide; [done|]. apply elem_of_app. right. left.
Qed.

Lemma enrollment_idempotent_witness :
  Student.add_course 0 0 campus =
    Ok tt (emit [[Str "Already enrolled in this course"]] campus) ∧
  Course.add_student 0 0 campus = Ok tt campus.
Proof.
  destruct (enrollment_idempotent campus 0 0 _ _ wf_campus eq_refl eq_refl)
    as (H1 & H2 & _).
  split; [|apply H2; left].
  destruct H1 as (st1 & E & -> & _); [reflexivity | exact E].
Defined.

(** C5. Enrollment through the student keeps both sides together.  After
    [Student.add_course(c)] with [c]'s code not yet a key, the roster of
    [c] holds the student exactly once and the student's mapping holds
    [c] exactly once, under [c]'s code.  After [Student.drop_course] of a
    code, the student is neither on the roster of the course that was
    stored under it nor holds that course.  And both methods keep the
    agreement of rosters and mappings over the whole store. *)
Theorem student_enrollment_bidirectional st s c so co :
  wf st → student_objs st !! s = Some so → course_objs st !! c = Some co →
  (dict_mem (course_code co) (courses so) = false →
     ∃ st1 so1 co1,
       Student.add_course s c st = Ok tt st1 ∧
       student_objs st1 !! s = Some so1 ∧ course_objs st1 !! c = Some co1 ∧
       count_ref s (students co1) = 1 ∧
       count_value c (courses so1) = 1 ∧
       dict_get (course_code co1) (courses so1) = Some c) ∧
  (dict_get (course_code co) (courses so) = Some c →
     ∃ st1, Student.drop_course s (course_code co) st = Ok tt st1 ∧
            ¬ on_roster st1 s c ∧ ¬ enrolled st1 s c) ∧
  (consistent st →
     ∃ st1, Student.add_course s c st = Ok tt st1 ∧ consistent st1) ∧
  (consistent st →
     ∀ code, ∃ st1, Student.drop_course s code st = Ok tt st1 ∧
                    consistent st1).
Proof.
  intros W Hs Hc.
  pose proof (lookup_lt_Some _ _ _ Hs) as Ls.
  pose proof (lookup_lt_Some _ _ _ Hc) as Lc.
  destruct (wf_course _ _ _ W Hc) as (N & Sub & L).
  destruct (wf_student _ _ _ W Hs) as [[NK K] Ng].
  assert (L' : ∀ so1, Forall (live (student_objs (upd_student s so1 st)))
                        (observers co)).
  { intros so1. eapply Forall_impl; [exact L|]. intros x.
    apply live_upd_student. }
  split; [|split; [|split]].
  - intros Hm. rewrite (add_course_absent _ _ so _ co) by done.
    set (so1 := with_course (course_code co) c so).
    destruct (add_student_total (upd_student s so1 st) c co s)
      as (st1 & co1 & E & Es & Ec & Hcode & Hst);
      [done|done|by apply live_upd_student|].
    exists st1, so1, co1. split; [done|].
    split; [rewrite Es; simpl; by apply list_lookup_insert_eq|].
    split; [rewrite Ec; simpl; by apply list_lookup_insert_eq|].
    apply dict_mem_false in Hm. split; [|split].
    + rewrite Hst. case_decide; [by apply count_ref_NoDup|].
      rewrite count_ref_app, count_ref_absent by done.
      unfold count_ref. by rewrite filter_cons_True.
    + simpl. rewrite dict_set_fresh by done.
      unfold count_value. rewrite filter_app, length_app.
      fold (count_value c (courses so)). rewrite count_value_absent.
      * by rewrite filter_cons_True.
      * intros k E'. destruct (K _ _ E') as (o & Ho & Hk).
        assert (o = co) as -> by congruence. subst k.
        apply dict_get_None in Hm. apply Hm.
        by apply (list_elem_of_fmap_2 fst) in E'.
    + rewrite Hcode. simpl. apply dict_get_set_eq.
  - intros Hg.
    rewrite (drop_course_present _ _ so _ c) by done.
    set (so1 := without_course (course_code co) so).
    destruct (remove_student_total (upd_student s so1 st) c co s)
      as (st1 & co1 & E & Es & Ec & Hcode & Hst & _); [done..|].
    exists st1. split; [done|]. split.
    + intros (x & Hx & Hin). rewrite Ec in Hx. simpl in Hx.
      rewrite list_lookup_insert_eq in Hx by done. injection Hx as <-.
      rewrite Hst in Hin. by apply remove_first_gone in Hin.
    + intros (x & y & Hx & Hy & Hg'). rewrite Es in Hx. rewrite Ec in Hy.
      simpl in Hx, Hy.
      rewrite list_lookup_insert_eq in Hx by done.
      rewrite list_lookup_insert_eq in Hy by done.
      injection Hx as <-. injection Hy as <-. rewrite Hcode in Hg'.
      simpl in Hg'. by rewrite dict_get_pop_eq in Hg'.
  - intros C. by eapply add_course_consistent.
  - intros C code. by eapply drop_course_consistent.
Qed.

Lemma student_enrollment_bidirectional_witness :
  ∃ st1, Student.drop_course 0 "CSE110" campus = Ok tt st1 ∧
         ¬ on_roster st1 0 0 ∧ ¬ enrolled st1 0 0.
Proof.
  destruct (student_enrollment_bidirectional campus 0 0 _ _ wf_campus
              eq_refl eq_refl) as (_ & H & _).
  apply H. reflexivity.
Defined.

(** C10. Enrollment through the course alone is one-sided.  For a
    student not on the roster, [Course.add_student] appends the student
    to the roster, makes it an observer and notifies the observers; no
    student object changes, so a student that does not hold the course
    ends up on its roster without holding it.  Such a store is reachable:
    agreement of rosters and mappings is only kept by the student's own
    methods. *)
Theorem course_add_student_one_sided st c co s so :
  wf st → course_objs st !! c = Some co → student_objs st !! s = Some so →
  s ∉ students co →
  (∃ st1 co1,
     Course.add_student c s st = Ok tt st1 ∧
     course_objs st1 !! c = Some co1 ∧
     students co1 = students co ++ [s] ∧ s ∈ observers co1 ∧
     student_objs st1 = student_objs st ∧
     stdout st1 =
       stdout st ++ (notice st [Str "Enrolled in "; Str (course_name co)]
                       <$> observers co1) ∧
     (dict_get (course_code co) (courses so) ≠ Some c →
        on_roster st1 s c ∧ ¬ enrolled st1 s c)) ∧
  (∃ st0, reachable st0 ∧ on_roster st0 0 0 ∧ ¬ enrolled st0 0 0 ∧
          ¬ consistent st0).
Proof.
  intros W Hc Hs Hin.
  pose proof (lookup_lt_Some _ _ _ Hc) as Lc.
  destruct (wf_course _ _ _ W Hc) as (N & Sub & L). split.
  - eexists _, (with_student s co).
    split; [apply add_student_absent; [done..|by eapply live_Some]|].
    split; [simpl; by apply list_lookup_insert_eq|].
    split; [done|]. split.
    { unfold with_student, with_observer. simpl. case_decide; [done|].
      apply elem_of_app. right. left. }
    split; [done|]. split; [done|].
    intros Hg. split.
    + exists (with_student s co). simpl.
      split; [by apply list_lookup_insert_eq|].
      apply elem_of_app. right. left.
    + intros (x & y & Hx & Hy & Hg'). simpl in Hx, Hy.
      rewrite list_lookup_insert_eq in Hy by done. injection Hy as <-.
      assert (x = so) as -> by congruence. done.
  - assert (R : on_roster one_sided 0 0 ∧ ¬ enrolled one_sided 0 0).
    { split.
      - eexists. split; [reflexivity|]. left.
      - intros (x & y & Hx & Hy & Hg).
        injection Hx as <-. injection Hy as <-. discriminate Hg. }
    exists one_sided. split; [apply one_sided_reachable|].
    split; [apply R|]. split; [apply R|].
    intros C. destruct R as [R1 R2]. by apply R2, C.
Qed.

Lemma course_add_student_one_sided_witness :
  ∃ st1 co1,
    Course.add_student 1 0 campus_twins = Ok tt st1 ∧
    course_objs st1 !! 1 = Some co1 ∧ students co1 = [0] ∧
    student_objs st1 = student_objs campus_twins.
Proof.
  destruct (course_add_student_one_sided campus_twins 1 _ 0 _ wf_campus_twins
              eq_refl eq_refl) as [(st1 & co1 & H1 & H2 & H3 & _ & H4 & _) _].
  - apply not_elem_of_nil.
  - by exists st1, co1.
Defined.

(** C8. [Course.remove_student] of a student on the roster takes the
    first occurrence off the roster, which is then one shorter and no
    longer holds the student, and sends "Dropped from <name>" to every observer.  The
    observer list is not touched: the removed student is still an
    observer, receives this very notification, and receives every later
    one.  For a student that is not on the roster nothing changes and
    nothing is printed. *)
Theorem remove_student_keeps_subscriber st c co s :
  wf st → course_objs st !! c = Some co →
  (s ∈ students co →
     ∃ st1 co1,
       Course.remove_student c s st = Ok tt st1 ∧
       course_objs st1 !! c = Some co1 ∧
       students co1 = list_remove_first s (students co) ∧
       S (length (students co1)) = length (students co) ∧
       (s ∉ students co1) ∧
       observers co1 = observers co ∧ s ∈ observers co1 ∧
       student_objs st1 = student_objs st ∧
       stdout st1 =
         stdout st ++ (notice st [Str "Dropped from "; Str (course_name co)]
                         <$> observers co) ∧
       notice st [Str "Dropped from "; Str (course_name co)] s ∈ stdout st1 ∧
       ∀ message, ∃ st2,
         Course.notify c message st1 = Ok tt st2 ∧
         stdout st2 = stdout st1 ++ (notice st1 message <$> observers co) ∧
         notice st1 message s ∈ stdout st2) ∧
  (s ∉ students co → Course.remove_student c s st = Ok tt st).
Proof.
  intros W Hc.
  pose proof (lookup_lt_Some _ _ _ Hc) as Lc.
  destruct (wf_course _ _ _ W Hc) as (N & Sub & L).
  split; [|by apply remove_student_absent].
  intros Hin. eexists _, (without_student s co).
  split; [by apply remove_student_present|].
  assert (Hc1 : course_objs
                  (emit (notice st [Str "Dropped from "; Str (course_name co)]
                           <$> observers co)
                     (upd_course c (without_student s co) st)) !! c
                = Some (without_student s co)).
  { simpl. by apply list_lookup_insert_eq. }
  split; [done|]. split; [done|].
  split; [by apply remove_first_length|].
  split; [by apply remove_first_gone|]. split; [done|].
  split; [by apply Sub|]. split; [done|]. split; [done|]. split.
  - simpl. apply elem_of_app. right.
    apply list_elem_of_fmap_2. by apply Sub.
  - intros message. eexists.
    split; [by apply (notify_ok _ c (without_student s co))|].
    split; [done|]. simpl. apply elem_of_app. right.
    apply (list_elem_of_fmap_2 (notice _ message)). by apply Sub.
Qed.

Lemma remove_student_keeps_subscriber_witness :
  ∃ st1 co1,
    Course.remove_student 0 0 campus = Ok tt st1 ∧
    course_objs st1 !! 0 = Some co1 ∧ students co1 = [] ∧
    observers co1 = [0].
Proof.
  destruct (remove_student_keeps_subscriber campus 0 _ 0 wf_campus eq_refl)
    as [H _].
  destruct H as (st1 & co1 & H1 & H2 & H3 & _ & _ & H4 & _); [left|].
  by exists st1, co1.
Defined.

(** ** The registry *)

Lemma new_keeps_instance r : inv (fun st => _instance st = Some r)
                               UniversitySystem.__new__.
Proof.
  intros st H. unfold UniversitySystem.__new__. munfold. by rewrite H.
Qed.

Lemma exec_keeps_instance r c st st' :
  _instance st = Some r → exec c st = Ok tt st' → _instance st' = Some r.
Proof.
  intros H E. destruct (bad_role_dec c) as [B|B].
  - destruct (exec_bad_role c st B) as [e E']. congruence.
  - assert (X : inv (fun st => _instance st = Some r) (exec c)).
    { apply inv_exec; try done. apply new_keeps_instance. }
    specialize (X st H). by rewrite E in X.
Qed.

Lemma run_keeps_instance r cs : ∀ st st',
  _instance st = Some r → run cs st = Ok tt st' → _instance st' = Some r.
Proof.
  unfold run. induction cs as [|c cs IH]; simpl; intros st st' H E.
  - by injection E as <-.
  - unfold mbind, M_bind in E.
    destruct (exec c st) as [[] st1| |] eqn:E1; try done.
    apply (IH st1); [|done]. by eapply exec_keeps_instance.
Qed.

Lemma new_of_instance r st :
  _instance st = Some r → UniversitySystem.__new__ st = Ok r st.
Proof. intros H. unfold UniversitySystem.__new__. munfold. by rewrite H. Qed.

(** C6. The registry is a singleton.  A construction returns an
    instance and records it; when none existed, the instance is new and
    its three mappings are empty.  Whatever calls follow, every later
    construction returns that same instance and changes nothing, so a
    student added through the first reference is found through a
    reference obtained by constructing again. *)
Theorem registry_singleton st :
  ∃ r st1,
    UniversitySystem.__new__ st = Ok r st1 ∧ _instance st1 = Some r ∧
    (_instance st = None →
       r = length (uni_objs st) ∧
       uni_objs st1 !! r = Some (mkUniversitySystem [] [] [])) ∧
    (∀ r0, _instance st = Some r0 → r = r0 ∧ st1 = st) ∧
    (∀ cs st2, run cs st1 = Ok tt st2 →
               UniversitySystem.__new__ st2 = Ok r st2) ∧
    (∀ cs st2 u s so,
       run cs st1 = Ok tt st2 →
       uni_objs st2 !! r = Some u → student_objs st2 !! s = Some so →
       ∃ st3 u3,
         UniversitySystem.add_student r s st2 = Ok tt st3 ∧
         UniversitySystem.__new__ st3 = Ok r st3 ∧
         uni_objs st3 !! r = Some u3 ∧
         dict_get (person_id (student_person so)) (uni_students u3) = Some s).
Proof.
  assert (∃ r st1, UniversitySystem.__new__ st = Ok r st1 ∧
                   _instance st1 = Some r ∧
                   (_instance st = None →
                      r = length (uni_objs st) ∧
                      uni_objs st1 !! r = Some (mkUniversitySystem [] [] [])) ∧
                   (∀ r0, _instance st = Some r0 → r = r0 ∧ st1 = st))
    as (r & st1 & E & Hi & Hnew & Hold).
  { unfold UniversitySystem.__new__. munfold.
    destruct (_instance st) as [r|] eqn:Ei; simpl.
    - exists r, st. split; [done|]. split; [done|]. split; [done|].
      by intros r0 [= <-].
    - eexists _, _. split; [done|]. split; [done|]. split; [|done].
      intros _. split; [done|]. simpl. by apply list_lookup_middle. }
  exists r, st1. split; [done|]. split; [done|]. split; [done|].
  split; [done|]. split.
  - intros cs st2 R. apply new_of_instance. by eapply run_keeps_instance.
  - intros cs st2 u s so R Hu Hs.
    pose proof (lookup_lt_Some _ _ _ Hu) as Lu.
    eexists _, _. split.
    { unfold UniversitySystem.add_student. munfold. by rewrite Hu, Hs. }
    split; [apply new_of_instance; simpl; by eapply run_keeps_instance|].
    split; [simpl; by apply list_lookup_insert_eq|].
    simpl. apply dict_get_set_eq.
Qed.

(** ** The factory and the exceptions *)




(** ** Overwriting in the registry *)




(** ** Further properties of the stores that calls build *)

Lemma wf_campus_graded : wf campus_graded.
Proof.
  apply reachable_wf.
  apply (trace_reachable graded_calls initial); [constructor|].
  vm_compute. reflexivity.
Qed.

(** X1. Every store built by calls on existing objects keeps the data
    model's invariants: a roster has no duplicate and its students are
    observers that exist; the keys of a student's mappings are unique and
    each course it holds exists and is stored under its own code; the
    courses of a teacher exist; every registry mapping has unique keys
    and stores existing objects under their own id or code. *)
Theorem reachable_store_invariants st :
  reachable st →
  (∀ c co, course_objs st !! c = Some co →
     NoDup (students co) ∧ students co ⊆ observers co ∧
     ∀ o, o ∈ observers co → is_Some (student_objs st !! o)) ∧
  (∀ s so, student_objs st !! s = Some so →
     NoDup (dict_keys (courses so)) ∧ NoDup (dict_keys (grades so)) ∧
     ∀ k c, dict_get k (courses so) = Some c →
            ∃ co, course_objs st !! c = Some co ∧ course_code co = k) ∧
  (∀ t to, teacher_objs st !! t = Some to →
     ∀ c, c ∈ teacher_courses to → is_Some (course_objs st !! c)) ∧
  (∀ u uo, uni_objs st !! u = Some uo →
     NoDup (dict_keys (uni_students uo)) ∧
     NoDup (dict_keys (uni_teachers uo)) ∧
     NoDup (dict_keys (uni_courses uo)) ∧
     (∀ k s, dict_get k (uni_students uo) = Some s →
             ∃ so, student_objs st !! s = Some so ∧
                   person_id (student_person so) = k) ∧
     (∀ k t, dict_get k (uni_teachers uo) = Some t →
             ∃ to, teacher_objs st !! t = Some to ∧
                   person_id (teacher_person to) = k) ∧
     (∀ k c, dict_get k (uni_courses uo) = Some c →
             ∃ co, course_objs st !! c = Some co ∧ course_code co = k)).
Proof.
  intros R. apply reachable_wf in R as W. split; [|split; [|split]].
  - intros c co Hc. destruct (wf_course _ _ _ W Hc) as (N & Sub & L).
    split; [done|]. split; [done|]. intros o Ho.
    rewrite Forall_forall in L. by apply live_lookup, L.
  - intros s so Hs. destruct (wf_student _ _ _ W Hs) as [K N].
    split; [apply K|]. split; [done|]. intros k c Hg.
    by apply (keyed_get course_code _ _ _ _ K).
  - intros t to Ht c Hc. pose proof (wf_teacher _ _ _ W Ht) as L.
    unfold teacher_ok in L. rewrite Forall_forall in L.
    by apply live_lookup, L.
  - intros u uo Hu. destruct (wf_uni _ _ _ W Hu) as (K1 & K2 & K3).
    split; [apply K1|]. split; [apply K2|]. split; [apply K3|].
    split; [|split].
    + intros k s Hg.
      by apply (keyed_get (fun s => person_id (student_person s)) _ _ _ _ K1).
    + intros k t Hg.
      by apply (keyed_get (fun t => person_id (teacher_person t)) _ _ _ _ K2).
    + intros k c Hg. by apply (keyed_get course_code _ _ _ _ K3).
Qed.

Lemma reachable_store_invariants_witness :
  ∃ co, course_objs campus !! 0 = Some co ∧ NoDup (students co).
Proof.
  destruct (reachable_store_invariants campus campus_reachable) as (H1 & _).
  exists (mkCourse "CSE110" "Intro to Programming" 3%Q [0] [0]).
  split; [reflexivity|].
  destruct (H1 0 (mkCourse "CSE110" "Intro to Programming" 3%Q [0] [0])
              eq_refl) as (N & _).
  exact N.
Defined.

Lemma one_registry_new : inv one_registry UniversitySystem.__new__.
Proof.
  intros st [[Hi Hu]|[Hi Hu]]; unfold UniversitySystem.__new__; munfold;
    rewrite Hi; simpl.
  - right. simpl. rewrite Hu. by split.
  - by right.
Qed.

(** X2. At most one [UniversitySystem] object is ever created: a reachable
    store holds no registry instance and [_instance] is unset, or it
    holds exactly one and [_instance] refers to it. *)
Theorem reachable_one_registry st : reachable st → one_registry st.
Proof.
  induction 1 as [|st c st' R IH L E]; [by left|].
  destruct (bad_role_dec c) as [B|B].
  - destruct (exec_bad_role c st B) as [e E']. congruence.
  - assert (X : inv one_registry (exec c)).
    { apply inv_exec; try done; [|apply one_registry_new].
      intros r u st0 [[Hi Hu]|[Hi Hu]]; [left|right]; simpl.
      - rewrite Hu. by split.
      - rewrite length_insert. by split. }
    specialize (X st IH). by rewrite E in X.
Qed.

Lemma reachable_one_registry_witness :
  _instance campus = Some 0 ∧ length (uni_objs campus) = 1.
Proof.
  destruct (reachable_one_registry campus campus_reachable) as [[H _]|H].
  - discriminate H.
  - exact H.
Defined.



(** ** What the listings print *)






(** ** Enrolling, dropping and the observers *)

Lemma dict_pop_set_fresh {V} k (v : V) d :
  dict_get k d = None → dict_pop k (dict_set k v d) = d.
Proof.
  induction d as [|[k0 v0] d IH]; simpl.
  - by rewrite decide_True.
  - case_decide; [done|]. intros E. simpl.
    rewrite decide_False by done. by rewrite IH.
Qed.



Lemma remove_first_app_last s l :
  s ∉ l → list_remove_first s (l ++ [s]) = l.
Proof.
  induction l as [|y l IH]; simpl.
  - intros _. by rewrite decide_True.
  - rewrite not_elem_of_cons. intros [Hne Hl].
    rewrite decide_False by done. by rewrite IH.
Qed.

Lemma student_name_upd st s so so1 x :
  student_objs st !! s = Some so →
  name (student_person so1) = name (student_person so) →
  student_name (upd_student s so1 st) x = student_name st x.
Proof.
  intros Hs Hn. unfold student_name. simpl.
  destruct (decide (s = x)) as [->|Hne].
  - rewrite list_lookup_insert_eq by (by eapply lookup_lt_Some).
    by rewrite Hs.
  - by rewrite list_lookup_insert_ne.
Qed.

Lemma notices_upd st s so so1 message (xs : list ref) :
  student_objs st !! s = Some so →
  name (student_person so1) = name (student_person so) →
  notice (upd_student s so1 st) message <$> xs = notice st message <$> xs.
Proof.
  intros Hs Hn. apply list_fmap_ext. intros i x _. unfold notice.
  by rewrite (student_name_upd st s so so1).
Qed.

Lemma live_observers_upd st s so1 xs :
  Forall (live (student_objs st)) xs →
  Forall (live (student_objs (upd_student s so1 st))) xs.
Proof.
  intros L. eapply Forall_impl; [exact L|]. intros x.
  apply live_upd_student.
Qed.

(** What [Student.add_course] computes for a code that is not yet a key
    and a student that is not yet on the roster. *)
Lemma add_course_fresh st s c so co :
  wf st → student_objs st !! s = Some so → course_objs st !! c = Some co →
  dict_mem (course_code co) (courses so) = false → s ∉ students co →
  Student.add_course s c st =
    Ok tt (emit (notice st [Str "Enrolled in "; Str (course_name co)]
                   <$> observers (with_student s co))
             (upd_course c (with_student s co)
                (upd_student s (with_course (course_code co) c so) st))).
Proof.
  intros W Hs Hc Hm Hin.
  destruct (wf_course _ _ _ W Hc) as (N & Sub & L).
  rewrite (add_course_absent _ _ so _ co) by done.
  rewrite (add_student_absent _ c co s);
    [|done|done|by apply live_observers_upd
     |apply live_upd_student; by eapply live_Some].
  by rewrite (notices_upd st s so).
Qed.

(** X6. Enrolling and then dropping restores the student and the roster but
    not the observers: after [add_course] of a course whose code is not
    yet a key, by a student not yet on the roster, and [drop_course] of
    that code, every student object and the roster are what they were,
    while the student has become, and stays, an observer of the course. *)
Theorem enroll_then_drop_round_trip st s c so co :
  wf st → student_objs st !! s = Some so → course_objs st !! c = Some co →
  dict_mem (course_code co) (courses so) = false → s ∉ students co →
  ∃ st1 st2 co2,
    Student.add_course s c st = Ok tt st1 ∧
    Student.drop_course s (course_code co) st1 = Ok tt st2 ∧
    student_objs st2 = student_objs st ∧
    course_objs st2 = <[c:=co2]> (course_objs st) ∧
    students co2 = students co ∧
    s ∈ observers co2 ∧
    (∀ o, o ∈ observers co2 ↔ o = s ∨ o ∈ observers co) ∧
    teacher_objs st2 = teacher_objs st ∧ uni_objs st2 = uni_objs st.
Proof.
  intros W Hs Hc Hm Hin.
  pose proof (lookup_lt_Some _ _ _ Hs) as Ls.
  pose proof (lookup_lt_Some _ _ _ Hc) as Lc.
  destruct (wf_course _ _ _ W Hc) as (N & Sub & L).
  set (so1 := with_course (course_code co) c so).
  set (co1 := with_student s co).
  assert (Hobs : ∀ o, o ∈ observers co1 ↔ o = s ∨ o ∈ observers co).
  { intros o. unfold co1, with_student, with_observer. simpl.
    case_decide.
    - split; [by right|]. by intros [->|?].
    - rewrite elem_of_app, list_elem_of_singleton. tauto. }
  eexists _, _, (without_student s co1).
  split; [by apply add_course_fresh|].
  set (st1 := emit _ _).
  assert (Hs1 : student_objs st1 !! s = Some so1).
  { simpl. by apply list_lookup_insert_eq. }
  assert (Hg : dict_get (course_code co) (courses so1) = Some c).
  { simpl. apply dict_get_set_eq. }
  split.
  { rewrite (drop_course_present st1 s so1 _ c) by done.
    apply (remove_student_present _ c co1 s).
    - simpl. by apply list_lookup_insert_eq.
    - simpl. apply elem_of_app. right. left.
    - simpl. apply Forall_forall. intros o Ho. apply Hobs in Ho.
      unfold live. rewrite !length_insert.
      destruct Ho as [->|Ho]; [done|]. rewrite Forall_forall in L.
      by apply L. }
  simpl. apply dict_mem_false in Hm.
  split.
  { rewrite list_insert_insert_eq. apply list_insert_id.
    rewrite Hs. f_equal. unfold without_course, so1. simpl.
    rewrite dict_pop_set_fresh by done. by destruct so as [[]]. }
  split; [by rewrite list_insert_insert_eq|].
  split; [by apply remove_first_app_last|].
  split; [apply Hobs; by left|]. split; [exact Hobs|]. done.
Qed.

Lemma enroll_then_drop_round_trip_witness :
  ∃ st1 st2,
    Student.add_course 1 1 campus_twins = Ok tt st1 ∧
    Student.drop_course 1 "CSE110" st1 = Ok tt st2 ∧
    student_objs st2 = student_objs campus_twins.
Proof.
  destruct (enroll_then_drop_round_trip campus_twins 1 1 _ _ wf_campus_twins
              eq_refl eq_refl eq_refl)
    as (st1 & st2 & co2 & H1 & H2 & H3 & _).
  - apply not_elem_of_nil.
  - by exists st1, st2.
Defined.

(** X7. Dropping a course keeps its grade.  [drop_course] never touches the
    grade mapping, so the GPA computed afterwards is the one computed
    before; but the code is no longer a key of the enrolled courses, so
    a later [assign_grade] under it is refused. *)
Theorem drop_course_keeps_grades st s so code :
  wf st → student_objs st !! s = Some so →
  ∃ st1 so1,
    Student.drop_course s code st = Ok tt st1 ∧
    student_objs st1 !! s = Some so1 ∧
    grades so1 = grades so ∧
    Student.calculate_gpa s st1 =
      Ok (GPAStrategy.calculate (gpa_strategy so) (grades so)) st1 ∧
    dict_mem code (courses so1) = false ∧
    ∀ t to grade, teacher_objs st !! t = Some to →
      Teacher.assign_grade t s code grade st1 =
        Ok tt (emit [[Str "Student not enrolled in this course"]] st1).
Proof.
  intros W Hs.
  pose proof (lookup_lt_Some _ _ _ Hs) as Ls.
  destruct (wf_student _ _ _ W Hs) as [K Ng].
  assert (∃ st1 so1,
            Student.drop_course s code st = Ok tt st1 ∧
            student_objs st1 !! s = Some so1 ∧
            teacher_objs st1 = teacher_objs st ∧
            grades so1 = grades so ∧ gpa_strategy so1 = gpa_strategy so ∧
            dict_get code (courses so1) = None)
    as (st1 & so1 & E & Hs1 & Ht1 & Hg1 & Hstrat & Hc1).
  { destruct (dict_get code (courses so)) as [c|] eqn:Hg.
    - rewrite (drop_course_present _ _ so _ c) by done.
      destruct (keyed_get _ _ _ _ _ K Hg) as (co & Hc & Hcode).
      destruct (wf_course _ _ _ W Hc) as (N & Sub & L).
      set (so1 := without_course code so).
      assert (Hpop : dict_get code (courses so1) = None).
      { simpl. apply dict_get_pop_eq, K. }
      destruct (decide (s ∈ students co)) as [Hin|Hin].
      + eexists _, so1. split.
        { apply (remove_student_present _ c co s); [done..|].
          by apply live_observers_upd. }
        simpl. split; [by apply list_lookup_insert_eq|]. done.
      + eexists _, so1. split.
        { by apply (remove_student_absent _ c co s). }
        simpl. split; [by apply list_lookup_insert_eq|]. done.
    - eexists _, so. split; [by eapply drop_course_absent|]. done. }
  exists st1, so1. split; [done|]. split; [done|]. split; [done|].
  split.
  { unfold Student.calculate_gpa. munfold. by rewrite Hs1, Hstrat, Hg1. }
  apply dict_mem_false in Hc1 as Hm1. split; [done|].
  intros t to grade Ht. eapply assign_grade_absent; [|done..].
  rewrite Ht1. exact Ht.
Qed.

Lemma drop_course_keeps_grades_witness :
  ∃ st1, Student.drop_course 0 "CSE110" campus_graded = Ok tt st1 ∧
         Student.calculate_gpa 0 st1 = Ok (Some 4.0%Q) st1.
Proof.
  destruct (drop_course_keeps_grades campus_graded 0 _ "CSE110"
              wf_campus_graded eq_refl) as (st1 & so1 & H1 & _ & _ & H2 & _).
  by exists st1.
Defined.

(** X8. Removing a student through the course alone blocks re-enrollment.
    After [Course.remove_student] of a student that holds the course,
    the student is off the roster but still holds the course, so
    [Student.add_course] answers "Already enrolled in this course" and
    changes nothing: the student stays off the roster until it drops
    the course itself. *)
Theorem direct_removal_blocks_reenrollment st s c so co :
  wf st → student_objs st !! s = Some so → course_objs st !! c = Some co →
  dict_get (course_code co) (courses so) = Some c → s ∈ students co →
  ∃ st1,
    Course.remove_student c s st = Ok tt st1 ∧
    ¬ on_roster st1 s c ∧ enrolled st1 s c ∧
    Student.add_course s c st1 =
      Ok tt (emit [[Str "Already enrolled in this course"]] st1).
Proof.
  intros W Hs Hc Hg Hin.
  pose proof (lookup_lt_Some _ _ _ Hc) as Lc.
  destruct (wf_course _ _ _ W Hc) as (N & Sub & L).
  eexists. split; [by apply remove_student_present|].
  set (st1 := emit _ _).
  assert (Hc1 : course_objs st1 !! c = Some (without_student s co)).
  { simpl. by apply list_lookup_insert_eq. }
  split; [|split].
  - intros (x & Hx & Hin'). rewrite Hc1 in Hx. injection Hx as <-.
    simpl in Hin'. by apply remove_first_gone in Hin'.
  - by exists so, (without_student s co).
  - apply (add_course_present st1 s so c (without_student s co)); [done..|].
    simpl. apply dict_mem_true. by eexists.
Qed.

Lemma direct_removal_blocks_reenrollment_witness :
  ∃ st1,
    Course.remove_student 0 0 campus = Ok tt st1 ∧
    Student.add_course 0 0 st1 =
      Ok tt (emit [[Str "Already enrolled in this course"]] st1).
Proof.
  destruct (direct_removal_blocks_reenrollment campus 0 0 _ _ wf_campus
              eq_refl eq_refl eq_refl) as (st1 & H1 & _ & _ & H2).
  - left.
  - by exists st1.
Defined.



(** X10. [Course.attach] never duplicates a subscriber: the observer is in
    the list afterwards, nobody else joined or left, a list without
    duplicate stays without, the roster and the console are untouched,
    and attaching again changes nothing. *)
Theorem attach_never_duplicates st c co o :
  course_objs st !! c = Some co → NoDup (observers co) →
  ∃ st1 co1,
    Course.attach c o st = Ok tt st1 ∧
    course_objs st1 !! c = Some co1 ∧
    NoDup (observers co1) ∧
    (∀ x, x ∈ observers co1 ↔ x = o ∨ x ∈ observers co) ∧
    students co1 = students co ∧
    student_objs st1 = student_objs st ∧ stdout st1 = stdout st ∧
    Course.attach c o st1 = Ok tt st1.
Proof.
  intros Hc N. pose proof (lookup_lt_Some _ _ _ Hc) as Lc.
  rewrite (attach_ok _ _ co) by done.
  destruct (decide (o ∈ observers co)) as [Hin|Hin].
  - exists st, co. split; [done|]. split; [done|]. split; [done|].
    split; [intros x; split; [by right | by intros [->|?]]|].
    split; [done|]. split; [done|]. split; [done|].
    rewrite (attach_ok _ _ co) by done. by rewrite decide_True.
  - eexists _, (with_observer o co). split; [done|].
    assert (Hc1 : course_objs (upd_course c (with_observer o co) st) !! c
                  = Some (with_observer o co)).
    { simpl. by apply list_lookup_insert_eq. }
    assert (Ho : observers (with_observer o co) = observers co ++ [o]).
    { unfold with_observer. simpl. by rewrite decide_False. }
    split; [done|]. rewrite Ho. split.
    { apply NoDup_app. split; [done|]. split; [|apply NoDup_singleton].
      intros x Hx Hx'. apply list_elem_of_singleton in Hx'. by subst. }
    split.
    { intros x. rewrite elem_of_app, list_elem_of_singleton. tauto. }
    split; [done|]. split; [done|]. split; [done|].
    rewrite (attach_ok _ _ (with_observer o co)) by done.
    rewrite decide_True; [done|]. rewrite Ho. apply elem_of_app.
    right. left.
Qed.

Lemma attach_never_duplicates_witness :
  ∃ st1 co1,
    Course.attach 0 1 campus_twins = Ok tt st1 ∧
    course_objs st1 !! 0 = Some co1 ∧ NoDup (observers co1).
Proof.
  destruct (attach_never_duplicates campus_twins 0 _ 1 eq_refl)
    as (st1 & co1 & H1 & H2 & H3 & _).
  - apply NoDup_singleton.
  - by exists st1, co1.
Defined.

(** ** Grades *)






(** X12. [assign_grade] under an enrolled code stores the grade and nothing
    else: the code then maps to the new grade, every other code keeps
    its grade, the enrolled courses are untouched; a code that had a
    grade keeps its place among the keys (the old grade is replaced),
    a code that had none is added last. *)
Theorem assign_grade_stores_grade st t to s so code grade :
  teacher_objs st !! t = Some to → student_objs st !! s = Some so →
  dict_mem code (courses so) = true →
  ∃ st1 so1,
    Teacher.assign_grade t s code grade st = Ok tt st1 ∧
    student_objs st1 !! s = Some so1 ∧
    dict_get code (grades so1) = Some grade ∧
    (∀ k, k ≠ code → dict_get k (grades so1) = dict_get k (grades so)) ∧
    courses so1 = courses so ∧
    (is_Some (dict_get code (grades so)) →
       dict_keys (grades so1) = dict_keys (grades so)) ∧
    (dict_get code (grades so) = None →
       grades so1 = grades so ++ [(code, grade)]) ∧
    course_objs st1 = course_objs st.
Proof.
  intros Ht Hs Hm. pose proof (lookup_lt_Some _ _ _ Hs) as Ls.
  eexists _, (with_grade code grade so).
  split; [by eapply assign_grade_present|]. simpl.
  split; [by apply list_lookup_insert_eq|].
  split; [apply dict_get_set_eq|].
  split; [intros k Hk; by apply dict_get_set_ne|]. split; [done|].
  split; [apply dict_set_keys_present|]. split; [apply dict_set_fresh|done].
Qed.

Lemma assign_grade_stores_grade_witness :
  ∃ st1 so1,
    Teacher.assign_grade 0 0 "CSE110" 3.0%Q campus_graded = Ok tt st1 ∧
    student_objs st1 !! 0 = Some so1 ∧
    dict_get "CSE110" (grades so1) = Some 3.0%Q ∧
    dict_keys (grades so1) = ["CSE110"].
Proof.
  destruct (assign_grade_stores_grade campus_graded 0 _ 0 _ "CSE110" 3.0%Q
              eq_refl eq_refl eq_refl)
    as (st1 & so1 & H1 & H2 & H3 & _ & _ & H4 & _).
  exists st1, so1. split; [done|]. split; [done|]. split; [done|].
  apply H4. by eexists.
Defined.

(** ** More on the registry *)

Lemma upd_uni_id st u uo : uni_objs st !! u = Some uo → upd_uni u uo st = st.
Proof.
  intros H. destruct st. unfold upd_uni. simpl in *.
  by rewrite list_insert_id.
Qed.



(** X14. Adding under a new key and removing it again is a round trip.
    [add_student] of a student whose id is no key yet puts it last in
    the mapping, where a lookup by the id finds it, and
    [remove_student] of that id then gives back the store as it was.
    The same holds for teachers and for courses. *)
Theorem registry_add_then_remove st u uo :
  uni_objs st !! u = Some uo →
  (∀ s so, student_objs st !! s = Some so →
     dict_get (person_id (student_person so)) (uni_students uo) = None →
     ∃ st1 uo1,
       UniversitySystem.add_student u s st = Ok tt st1 ∧
       uni_objs st1 !! u = Some uo1 ∧
       uni_students uo1 =
         uni_students uo ++ [(person_id (student_person so), s)] ∧
       dict_get (person_id (student_person so)) (uni_students uo1) = Some s ∧
       UniversitySystem.remove_student u (person_id (student_person so)) st1
         = Ok tt st) ∧
  (∀ t to, teacher_objs st !! t = Some to →
     dict_get (person_id (teacher_person to)) (uni_teachers uo) = None →
     ∃ st1 uo1,
       UniversitySystem.add_teacher u t st = Ok tt st1 ∧
       uni_objs st1 !! u = Some uo1 ∧
       uni_teachers uo1 =
         uni_teachers uo ++ [(person_id (teacher_person to), t)] ∧
       dict_get (person_id (teacher_person to)) (uni_teachers uo1) = Some t ∧
       UniversitySystem.remove_teacher u (person_id (teacher_person to)) st1
         = Ok tt st) ∧
  (∀ c co, course_objs st !! c = Some co →
     dict_get (course_code co) (uni_courses uo) = None →
     ∃ st1 uo1,
       UniversitySystem.add_course u c st = Ok tt st1 ∧
       uni_objs st1 !! u = Some uo1 ∧
       uni_courses uo1 = uni_courses uo ++ [(course_code co, c)] ∧
       dict_get (course_code co) (uni_courses uo1) = Some c ∧
       UniversitySystem.remove_course u (course_code co) st1 = Ok tt st).
Proof.
  intros Hu. pose proof (lookup_lt_Some _ _ _ Hu) as Lu.
  split; [|split].
  - intros s so Hs Hg. eexists _, _. split.
    { unfold UniversitySystem.add_student. munfold. by rewrite Hu, Hs. }
    simpl. split; [by apply list_lookup_insert_eq|].
    split; [by apply dict_set_fresh|]. split; [apply dict_get_set_eq|].
    unfold UniversitySystem.remove_student. munfold. simpl.
    rewrite list_lookup_insert_eq by done. simpl.
    rewrite dict_pop_set_fresh by done. f_equal.
    rewrite <- (upd_uni_id st u uo) at 2 by done.
    unfold upd_uni. simpl. rewrite list_insert_insert_eq. by destruct uo.
  - intros t to Ht Hg. eexists _, _. split.
    { unfold UniversitySystem.add_teacher. munfold. by rewrite Hu, Ht. }
    simpl. split; [by apply list_lookup_insert_eq|].
    split; [by apply dict_set_fresh|]. split; [apply dict_get_set_eq|].
    unfold UniversitySystem.remove_teacher. munfold. simpl.
    rewrite list_lookup_insert_eq by done. simpl.
    rewrite dict_pop_set_fresh by done. f_equal.
    rewrite <- (upd_uni_id st u uo) at 2 by done.
    unfold upd_uni. simpl. rewrite list_insert_insert_eq. by destruct uo.
  - intros c co Hc Hg. eexists _, _. split.
    { unfold UniversitySystem.add_course. munfold. by rewrite Hu, Hc. }
    simpl. split; [by apply list_lookup_insert_eq|].
    split; [by apply dict_set_fresh|]. split; [apply dict_get_set_eq|].
    unfold UniversitySystem.remove_course. munfold. simpl.
    rewrite list_lookup_insert_eq by done. simpl.
    rewrite dict_pop_set_fresh by done. f_equal.
    rewrite <- (upd_uni_id st u uo) at 2 by done.
    unfold upd_uni. simpl. rewrite list_insert_insert_eq. by destruct uo.
Qed.

Lemma registry_add_then_remove_witness :
  ∃ st1,
    UniversitySystem.add_student 0 0 (state_after (take 5 campus_calls))
      = Ok tt st1 ∧
    UniversitySystem.remove_student 0 "S01" st1
      = Ok tt (state_after (take 5 campus_calls)).
Proof.
  destruct (registry_add_then_remove (state_after (take 5 campus_calls)) 0 _
              eq_refl) as (H & _).
  destruct (H 0 _ eq_refl eq_refl) as (st1 & uo1 & H1 & _ & _ & _ & H2).
  by exists st1.
Defined.

(** ** Teachers and the authority *)

(** X15. [Teacher.assign_course] makes no uniqueness check: assigning the
    same course twice puts it twice on the teacher's list, after what
    was there, and touches nothing else; no message is printed. *)
Theorem assign_course_allows_duplicates st t to c :
  teacher_objs st !! t = Some to →
  ∃ st1 st2 to2,
    Teacher.assign_course t c st = Ok tt st1 ∧
    Teacher.assign_course t c st1 = Ok tt st2 ∧
    teacher_objs st2 !! t = Some to2 ∧
    teacher_courses to2 = teacher_courses to ++ [c; c] ∧
    count_ref c (teacher_courses to2) = count_ref c (teacher_courses to) + 2 ∧
    teacher_person to2 = teacher_person to ∧
    course_objs st2 = course_objs st ∧ student_objs st2 = student_objs st ∧
    stdout st2 = stdout st.
Proof.
  intros Ht. pose proof (lookup_lt_Some _ _ _ Ht) as Lt.
  eexists _, _, _. split.
  { unfold Teacher.assign_course. munfold. by rewrite Ht. }
  split.
  { unfold Teacher.assign_course. munfold. simpl.
    by rewrite list_lookup_insert_eq. }
  simpl. split.
  { apply list_lookup_insert_eq. by rewrite length_insert. }
  simpl. split; [by rewrite <- app_assoc|]. split; [|done].
  rewrite <- app_assoc, count_ref_app. simpl. f_equal.
  unfold count_ref. by rewrite !filter_cons_True.
Qed.

Lemma assign_course_allows_duplicates_witness :
  ∃ st1 st2 to2,
    Teacher.assign_course 0 0 campus = Ok tt st1 ∧
    Teacher.assign_course 0 0 st1 = Ok tt st2 ∧
    teacher_objs st2 !! 0 = Some to2 ∧ teacher_courses to2 = [0; 0].
Proof.
  destruct (assign_course_allows_duplicates campus 0 _ 0 eq_refl)
    as (st1 & st2 & to2 & H1 & H2 & H3 & H4 & _).
  by exists st1, st2, to2.
Defined.

(** X16. [Teacher.assign_grade] does not look at the teacher: whichever
    existing teacher makes the call, with whatever list of courses, the
    outcome is the same. *)
Theorem any_teacher_may_grade st t1 t2 s code grade :
  live (teacher_objs st) t1 → live (teacher_objs st) t2 →
  Teacher.assign_grade t1 s code grade st =
  Teacher.assign_grade t2 s code grade st.
Proof.
  intros L1 L2.
  apply live_lookup in L1 as [to1 H1]. apply live_lookup in L2 as [to2 H2].
  unfold Teacher.assign_grade. munfold. by rewrite H1, H2.
Qed.

Lemma any_teacher_may_grade_witness :
  Teacher.assign_grade 0 0 "CSE110" 4.0%Q campus_twins =
  Teacher.assign_grade 1 0 "CSE110" 4.0%Q campus_twins.
Proof. apply any_teacher_may_grade; vm_compute; lia. Defined.

(** X17. [Authority.create_course] only constructs.  The course it returns
    is a new object with the given code, name and credit, an empty
    roster and no observer; every object that existed is unchanged and
    nothing is printed.  Nobody refers to the new course: it is in no
    registry mapping, in no student's mapping and on no teacher's list,
    so the caller has to register it. *)
Theorem created_course_is_unreferenced st a ao code name credit :
  wf st → authority_objs st !! a = Some ao →
  ∃ c st1,
    Authority.create_course a code name credit st = Ok c st1 ∧
    c = length (course_objs st) ∧
    course_objs st1 = course_objs st ++ [mkCourse code name credit [] []] ∧
    course_objs st1 !! c = Some (mkCourse code name credit [] []) ∧
    student_objs st1 = student_objs st ∧ teacher_objs st1 = teacher_objs st ∧
    uni_objs st1 = uni_objs st ∧ stdout st1 = stdout st ∧
    (∀ u uo, uni_objs st1 !! u = Some uo → c ∉ dict_values (uni_courses uo)) ∧
    (∀ s so, student_objs st1 !! s = Some so → c ∉ dict_values (courses so)) ∧
    (∀ t to, teacher_objs st1 !! t = Some to → c ∉ teacher_courses to).
Proof.
  intros W Ha.
  assert (F : ∀ l, Forall (live (course_objs st)) l →
                   length (course_objs st) ∉ l).
  { intros l L Hin. rewrite Forall_forall in L. apply L in Hin.
    unfold live in Hin. lia. }
  eexists _, _. split.
  { unfold Authority.create_course, Course.__init__. munfold.
    by rewrite Ha. }
  simpl. split; [done|]. split; [done|].
  split; [by apply list_lookup_middle|].
  split; [done|]. split; [done|]. split; [done|]. split; [done|].
  split; [|split].
  - intros u uo Hu. destruct (wf_uni _ _ _ W Hu) as (_ & _ & K).
    by eapply F, keyed_values_live.
  - intros s so Hs. destruct (wf_student _ _ _ W Hs) as [K _].
    by eapply F, keyed_values_live.
  - intros t to Ht. apply F. by eapply wf_teacher.
Qed.

Lemma created_course_is_unreferenced_witness :
  ∃ st1,
    Authority.create_course 0 "CSE220" "Data Structures" 3%Q campus
      = Ok 1 st1 ∧
    uni_objs st1 = uni_objs campus.
Proof.
  destruct (created_course_is_unreferenced campus 0 _ "CSE220"
              "Data Structures" 3%Q wf_campus eq_refl)
    as (c & st1 & H1 & -> & _ & _ & _ & _ & H2 & _).
  by exists st1.
Defined.

(** ** Agreement of rosters and mappings as an invariant *)

Lemma consistent_same st st' :
  student_objs st' = student_objs st → course_objs st' = course_objs st →
  consistent st → consistent st'.
Proof.
  intros Es Ec C s c. unfold on_roster, enrolled. rewrite Es, Ec. apply C.
Qed.

Lemma consistent_upd_student st s so so1 :
  student_objs st !! s = Some so → courses so1 = courses so →
  consistent st → consistent (upd_student s so1 st).
Proof.
  intros Hs Hc C s' c. pose proof (lookup_lt_Some _ _ _ Hs) as Ls.
  transitivity (enrolled st s' c); [exact (C s' c)|].
  unfold enrolled. simpl.
  destruct (decide (s' = s)) as [->|Hne].
  - rewrite list_lookup_insert_eq by done. split.
    + intros (x & co & Hx & Hco & Hg). assert (x = so) as -> by congruence.
      exists so1, co. by rewrite Hc.
    + intros (x & co & [= <-] & Hco & Hg). rewrite Hc in Hg. eauto.
  - by rewrite list_lookup_insert_ne.
Qed.

Lemma consistent_upd_course st c co co1 :
  course_objs st !! c = Some co → students co1 = students co →
  course_code co1 = course_code co →
  consistent st → consistent (upd_course c co1 st).
Proof.
  intros Hc Hst Hcode C s c'. pose proof (lookup_lt_Some _ _ _ Hc) as Lc.
  specialize (C s c'). unfold on_roster, enrolled in *. simpl.
  destruct (decide (c' = c)) as [->|Hne].
  - rewrite list_lookup_insert_eq by done. rewrite Hc in C. split.
    + intros (x & [= <-] & Hin). rewrite Hst in Hin.
      destruct (proj1 C) as (so & y & Hso & [= <-] & Hg); [by eauto|].
      exists so, co1. by rewrite Hcode.
    + intros (so & x & Hso & [= <-] & Hg). rewrite Hcode in Hg.
      destruct (proj2 C) as (y & [= <-] & Hin); [by eauto|].
      exists co1. by rewrite Hst.
  - by rewrite list_lookup_insert_ne.
Qed.

Lemma lookup_snoc_Some {A} (l : list A) x i y :
  (l ++ [x]) !! i = Some y → l !! i = Some y ∨ (i = length l ∧ y = x).
Proof.
  intros H. apply lookup_app_Some in H as [H|[Hle H]]; [by left|].
  right. destruct (i - length l) as [|n] eqn:E; simpl in H.
  - injection H as <-. split; [lia | done].
  - done.
Qed.

Lemma consistent_alloc_student st snew :
  courses snew = [] → consistent st → consistent (alloc_student snew st).
Proof.
  intros Hnew C s c. transitivity (enrolled st s c); [exact (C s c)|].
  unfold enrolled. simpl. split.
  - intros (so & co & Hs & Hc & Hg). exists so, co.
    split; [|done]. rewrite lookup_app_l; [done|]. by eapply lookup_lt_Some.
  - intros (so & co & Hs & Hc & Hg).
    apply lookup_snoc_Some in Hs as [Hs|[_ ->]]; [by eauto|].
    by rewrite Hnew in Hg.
Qed.

Lemma consistent_alloc_course st cnew :
  wf st → students cnew = [] → consistent st →
  consistent (alloc_course cnew st).
Proof.
  intros W Hnew C s c. specialize (C s c).
  unfold on_roster, enrolled in *. simpl. split.
  - intros (co & Hc & Hin).
    apply lookup_snoc_Some in Hc as [Hc|[_ ->]].
    + destruct (proj1 C) as (so & co' & Hs & Hc' & Hg); [by eauto|].
      exists so, co'. split; [done|]. split; [|done].
      rewrite lookup_app_l; [done|]. by eapply lookup_lt_Some.
    + rewrite Hnew in Hin. by apply elem_of_nil in Hin.
  - intros (so & co & Hs & Hc & Hg).
    apply lookup_snoc_Some in Hc as [Hc|[-> ->]].
    + destruct (proj2 C) as (co' & Hc' & Hin); [by eauto|].
      exists co'. split; [|done].
      rewrite lookup_app_l; [done|]. by eapply lookup_lt_Some.
    + destruct (wf_student _ _ _ W Hs) as [K _].
      destruct (keyed_get _ _ _ _ _ K Hg) as (o & Ho & _).
      apply lookup_lt_Some in Ho. lia.
Qed.

Lemma prints_consistent (m : M unit) st st' :
  (∃ lines, m st = Ok tt (emit lines st)) → m st = Ok tt st' →
  consistent st → consistent st'.
Proof. intros [lines E] E' C. rewrite E in E'. by injection E' as <-. Qed.

Lemma exec_student_side_consistent c st st' :
  wf st → consistent st → course_side c = false → args_live c st →
  exec c st = Ok tt st' → consistent st'.
Proof.
  intros W C Hside L. destruct c; try discriminate Hside; simpl in *.
  - intros [= <-]. by apply (consistent_alloc_student st).
  - intros [= <-]. by apply (consistent_same st).
  - intros [= <-]. by apply (consistent_same st).
  - intros [= <-]. by apply (consistent_alloc_course st).
  - unfold UserFactory.create_user. repeat case_decide; try done.
    + intros [= <-]. by apply (consistent_alloc_student st).
    + intros [= <-]. by apply (consistent_same st).
    + intros [= <-]. by apply (consistent_same st).
  - intros E. eapply prints_consistent; [|done..].
    by apply display_info_prints.
  - apply live_lookup in L as [ao Ha].
    unfold Authority.create_course, Course.__init__. munfold. rewrite Ha.
    intros [= <-]. by apply (consistent_alloc_course st).
  - destruct L as [Lc Lo]. apply live_lookup in Lc as [co Hc].
    rewrite (attach_ok _ _ co) by done. intros [= <-].
    case_decide; [done|].
    lazymatch goal with
    | |- consistent (upd_course ?c _ _) =>
        by apply (consistent_upd_course st c co)
    end.
  - apply live_lookup in L as [co Hc].
    destruct (wf_course _ _ _ W Hc) as (_ & _ & Lo).
    rewrite (notify_ok _ _ co) by done. by intros [= <-].
  - intros E. eapply prints_consistent; [|done..].
    by apply Course_view_students_prints.
  - destruct L as [Ls Lc]. apply live_lookup in Ls as [so Hs].
    apply live_lookup in Lc as [co Hc].
    destruct (add_course_consistent st _ _ so co W C Hs Hc)
      as (st1 & E1 & C1).
    rewrite E1. by intros [= <-].
  - apply live_lookup in L as [so Hs].
    lazymatch goal with
    | |- Student.drop_course ?s ?k st = _ → _ =>
        destruct (drop_course_consistent st s k so W C Hs) as (st1 & E1 & C1)
    end.
    rewrite E1. by intros [= <-].
  - apply live_lookup in L as [so Hs]. unfold Student.update.
    rewrite (update_ok _ _ so) by done. by intros [= <-].
  - intros E. eapply prints_consistent; [|done..].
    by apply Student_view_courses_prints.
  - intros E. eapply prints_consistent; [|done..].
    by apply Student_view_grades_prints.
  - apply live_lookup in L as [so Hs].
    unfold Student.calculate_gpa. munfold. rewrite Hs. by intros [= <-].
  - destruct L as [Lt Lc]. apply live_lookup in Lt as [to Ht].
    unfold Teacher.assign_course. munfold. rewrite Ht.
    intros [= <-]. by apply (consistent_same st).
  - destruct L as [Lt Ls]. apply live_lookup in Lt as [to Ht].
    apply live_lookup in Ls as [so Hs].
    lazymatch goal with
    | |- Teacher.assign_grade _ ?s ?k _ st = _ → _ =>
        destruct (dict_mem k (courses so)) eqn:Hm;
          [rewrite (assign_grade_present _ _ to _ so) by done; intros [= <-];
           by apply (consistent_upd_student st s so)
          |rewrite (assign_grade_absent _ _ to _ so) by done;
           by intros [= <-]]
    end.
  - intros E. eapply prints_consistent; [|done..].
    by apply Teacher_view_courses_prints.
  - unfold UniversitySystem.__new__. munfold.
    destruct (_instance st); simpl; intros [= <-]; done.
  - destruct L as [Lu Ls]. apply live_lookup in Lu as [uo Hu].
    apply live_lookup in Ls as [so Hs].
    unfold UniversitySystem.add_student. munfold. rewrite Hu, Hs.
    intros [= <-]. by apply (consistent_same st).
  - apply live_lookup in L as [uo Hu].
    unfold UniversitySystem.remove_student. munfold. rewrite Hu.
    intros [= <-]. by apply (consistent_same st).
  - destruct L as [Lu Lt]. apply live_lookup in Lu as [uo Hu].
    apply live_lookup in Lt as [to Ht].
    unfold UniversitySystem.add_teacher. munfold. rewrite Hu, Ht.
    intros [= <-]. by apply (consistent_same st).
  - apply live_lookup in L as [uo Hu].
    unfold UniversitySystem.remove_teacher. munfold. rewrite Hu.
    intros [= <-]. by apply (consistent_same st).
  - destruct L as [Lu Lc]. apply live_lookup in Lu as [uo Hu].
    apply live_lookup in Lc as [co Hc].
    unfold UniversitySystem.add_course. munfold. rewrite Hu, Hc.
    intros [= <-]. by apply (consistent_same st).
  - apply live_lookup in L as [uo Hu].
    unfold UniversitySystem.remove_course. munfold. rewrite Hu.
    intros [= <-]. by apply (consistent_same st).
  - intros E. eapply prints_consistent; [|done..].
    by apply list_students_prints.
  - intros E. eapply prints_consistent; [|done..].
    by apply list_teachers_prints.
  - intros E. eapply prints_consistent; [|done..].
    by apply list_courses_prints.
Qed.

Lemma student_side_reachable st : student_side st → reachable st.
Proof.
  induction 1 as [|st c st' R IH Hside L E]; [constructor|].
  by eapply reachable_step.
Qed.

Lemma trace_student_side cs : ∀ st st',
  forallb (fun c => negb (course_side c)) cs = true →
  student_side st → trace cs st = Some st' → student_side st'.
Proof.
  induction cs as [|c cs IH]; simpl; intros st st' Hall R E.
  - by injection E as <-.
  - apply andb_prop in Hall as [Hc Hall]. case_decide; [|done].
    destruct (exec c st) as [[] st1| |] eqn:E1; try done.
    apply (IH st1); [done| |done].
    eapply student_side_step; [done| |done..].
    by destruct (course_side c).
Qed.

Lemma campus_student_side : student_side campus.
Proof.
  apply (trace_student_side campus_calls initial);
    [reflexivity | constructor |].
  vm_compute. reflexivity.
Qed.

(** X18. As long as nobody calls [Course.add_student] or
    [Course.remove_student] directly, rosters and mappings agree: in
    every store built by the other calls, a student is on the roster of
    a course exactly when it holds that course under the course's code. *)
Theorem student_side_stores_are_consistent st :
  student_side st → consistent st.
Proof.
  induction 1 as [|st c st' R IH Hside L E].
  - intros s c. unfold on_roster, enrolled. simpl. split.
    + by intros (co & Hc & _).
    + by intros (so & co & Hs & _).
  - eapply exec_student_side_consistent; [|done..].
    by apply reachable_wf, student_side_reachable.
Qed.

Lemma student_side_stores_are_consistent_witness :
  on_roster campus 0 0 ↔ enrolled campus 0 0.
Proof.
  apply (student_side_stores_are_consistent campus campus_student_side).
Defined.
